(** * XeSSEngine shader compilation and caching pipeline

    A shallow embedding of [Graphics/ShaderCompiler/ShaderCompiler.cpp]
    (classes [ShaderCache] and [ShaderCompiler]) and of the hot-reload part
    of [Graphics/Shader.cpp] (class [Shader]), followed by the properties
    the design document states about them.

    Conventions of the embedding:
    - [uint32]/[uint64] values are [Z] with the wrap-around written out;
    - [std::vector<uint8>] is [list byte];
    - [std::unordered_map<std::string, T>] is [gmap string T];
    - objects are records, member functions take the object (and the
      outside world) and return the updated ones;
    - what the code obtains from the operating system, the C++ runtime and
      the two compiler toolchains is a field of [Platform];
    - a function that calls a backend returns, next to its result, the
      list of the calls it made, in order. *)

From Stdlib Require Import ZArith String Ascii List Lia Bool.
From Stdlib Require Import DecimalString HexadecimalString.
From Stdlib Require HexadecimalPos HexadecimalN.
From stdpp Require Import gmap strings list.
From coqutil Require Import Byte LittleEndianList.

Local Open Scope Z_scope.

(* ================================================================= *)
(** ** Machine integers *)

Definition wrap32 (x : Z) : Z := x mod 2 ^ 32.
Definition wrap64 (x : Z) : Z := x mod 2 ^ 64.

Definition add32 (a b : Z) : Z := wrap32 (a + b).
Definition add64 (a b : Z) : Z := wrap64 (a + b).
Definition shl64 (a n : Z) : Z := wrap64 (Z.shiftl a n).
Definition shr64 (a n : Z) : Z := Z.shiftr a n.
Definition xor64 (a b : Z) : Z := Z.lxor a b.

#[global] Instance byte_eq_dec : EqDecision byte := Byte.byte_eq_dec.

(* ================================================================= *)
(** ** ShaderCompiler.h: enumerations and value types *)

Inductive ShaderModel :=
| SM_5_0 | SM_5_1 | SM_6_0 | SM_6_1 | SM_6_2 | SM_6_3 | SM_6_4.

(** The enumerators' values, [major * 16 + minor]. *)
Definition ShaderModel_value (m : ShaderModel) : Z :=
  match m with
  | SM_5_0 => 0x50
  | SM_5_1 => 0x51
  | SM_6_0 => 0x60
  | SM_6_1 => 0x61
  | SM_6_2 => 0x62
  | SM_6_3 => 0x63
  | SM_6_4 => 0x64
  end.

(** [a <= b] on [enum class ShaderModel : uint32]. *)
Definition ShaderModel_le (a b : ShaderModel) : bool :=
  ShaderModel_value a <=? ShaderModel_value b.

Inductive ShaderType :=
| Vertex | Hull | Domain | Geometry | Pixel | Compute
| Amplification | Mesh | RayGeneration | Miss | ClosestHit | AnyHit.

Record ShaderMacro := {
  macro_name : string;
  macro_definition : string
}.

Record CompileOptions := {
  targetModel : ShaderModel;
  macros : list ShaderMacro;
  includePaths : list string;
  enableDebugInfo : bool;
  enableOptimization : bool;
  warningsAsErrors : bool;
  ieee754Compliance : bool;
  enableUnboundedResourceArrays : bool;
  optimizationLevel : Z                     (* uint32 *)
}.

(** [CompileOptions{}]: the member initialisers of the struct. *)
Definition CompileOptions_default : CompileOptions := {|
  targetModel := SM_6_4;
  macros := [];
  includePaths := [];
  enableDebugInfo := false;
  enableOptimization := true;
  warningsAsErrors := false;
  ieee754Compliance := false;
  enableUnboundedResourceArrays := false;
  optimizationLevel := 3
|}.

(** [D3D11_INPUT_ELEMENT_DESC] (d3d11.h). *)
Record InputElementDesc := {
  SemanticName : string;
  SemanticIndex : Z;
  Format : Z;
  InputSlot : Z;
  AlignedByteOffset : Z;
  InputSlotClass : Z;
  InstanceDataStepRate : Z
}.

Record CompiledShader := {
  bytecode : list byte;
  disassembly : string;
  errors : list string;
  warnings : list string;
  success : bool;
  inputLayout : list InputElementDesc;
  constantBufferBindings : gmap string Z;
  textureBindings : gmap string Z;
  samplerBindings : gmap string Z;
  uavBindings : gmap string Z
}.

(** A default-constructed [CompiledShader result;]. *)
Definition CompiledShader_new : CompiledShader := {|
  bytecode := [];
  disassembly := "";
  errors := [];
  warnings := [];
  success := false;
  inputLayout := [];
  constantBufferBindings := ∅;
  textureBindings := ∅;
  samplerBindings := ∅;
  uavBindings := ∅
|}.

Definition set_bytecode (b : list byte) (r : CompiledShader) : CompiledShader := {|
  bytecode := b; disassembly := disassembly r; errors := errors r;
  warnings := warnings r; success := success r; inputLayout := inputLayout r;
  constantBufferBindings := constantBufferBindings r;
  textureBindings := textureBindings r; samplerBindings := samplerBindings r;
  uavBindings := uavBindings r
|}.

Definition set_success (s : bool) (r : CompiledShader) : CompiledShader := {|
  bytecode := bytecode r; disassembly := disassembly r; errors := errors r;
  warnings := warnings r; success := s; inputLayout := inputLayout r;
  constantBufferBindings := constantBufferBindings r;
  textureBindings := textureBindings r; samplerBindings := samplerBindings r;
  uavBindings := uavBindings r
|}.

(** [r.errors.push_back(e)] *)
Definition push_error (e : string) (r : CompiledShader) : CompiledShader := {|
  bytecode := bytecode r; disassembly := disassembly r;
  errors := errors r ++ [e];
  warnings := warnings r; success := success r; inputLayout := inputLayout r;
  constantBufferBindings := constantBufferBindings r;
  textureBindings := textureBindings r; samplerBindings := samplerBindings r;
  uavBindings := uavBindings r
|}.

(** [r.warnings.push_back(e)] *)
Definition push_warning (e : string) (r : CompiledShader) : CompiledShader := {|
  bytecode := bytecode r; disassembly := disassembly r; errors := errors r;
  warnings := warnings r ++ [e];
  success := success r; inputLayout := inputLayout r;
  constantBufferBindings := constantBufferBindings r;
  textureBindings := textureBindings r; samplerBindings := samplerBindings r;
  uavBindings := uavBindings r
|}.

(* ================================================================= *)
(** ** The outside world *)

Record File := {
  file_data : list byte;
  file_mtime : Z                  (* last_write_time, in clock ticks *)
}.

Inductive Backend := Legacy | Modern.

(** Results of the legacy toolchain call [D3DCompile]: the [HRESULT] and
    the two out-blobs (absent = [nullptr]). *)
Record D3DCompileResult := {
  d3d_succeeded : bool;
  d3d_bytecodeBlob : option (list byte);
  d3d_errorBlob : option string
}.

(** What the sequence of DXC calls inside the [try] block of
    [CompileFromSource] can do. In [DxcCompiled], [dxc_object] is the
    blob of [GetOutput(DXC_OUT_OBJECT)] ([None] when the call fails or
    yields [nullptr]) and [dxc_errors] the one of
    [GetOutput(DXC_OUT_ERRORS)]. *)
Inductive DxcResult :=
| DxcThrows (what : string)
| DxcCreateBlobFailed
| DxcCompileFailed
| DxcCompiled (compileStatus_ok : bool) (dxc_object : option (list byte))
              (dxc_errors : option string).

(** What a request does, in the order it does it: [EnterBackend Legacy]
    is the call of [CompileWithLegacyCompiler], [EnterBackend Modern] the
    entry into the DXC branch of [CompileFromSource]; the others are the
    calls of the toolchains, of [ExtractReflectionData] and of
    [ShaderManager::CompileShader]. *)
Inductive Call :=
| EnterBackend (b : Backend)
| Call_D3DCompile (source : string) (sourceName : option string)
                  (defines : list ShaderMacro) (entryPoint profile : string)
                  (flags : Z)
| Call_DxcCompile (source : string) (arguments : list string)
| Call_ExtractReflectionData (code : list byte)
| Call_ManagerCompileShader (sourceName : string).

Record World := {
  files : gmap string File;
  denied : gset string;          (* paths that cannot be opened or created *)
  status_errors : gset string;   (* paths whose status cannot be read *)
  now : Z                         (* system_clock::now() *)
}.

Definition set_files (fs : gmap string File) (w : World) : World :=
  {| files := fs; denied := denied w; status_errors := status_errors w;
     now := now w |}.

(** How a call ends: with a value, with an exception that leaves it, or
    with the process faulting. *)
Inductive Outcome (A : Type) :=
| Returns (a : A)
| Throws
| AccessViolation.
Arguments Returns {A} a.
Arguments Throws {A}.
Arguments AccessViolation {A}.

(** What the code takes from its platform. *)
Record Platform := {
  (** [std::filesystem::path(p).stem().string()] *)
  path_stem : string -> string;
  (** [std::hash<std::string>] ([size_t]) *)
  std_hash : string -> Z;
  (** the bytes an uninitialised local buffer holds *)
  stack_junk : nat -> byte;
  (** [SUCCEEDED] of the three calls made by [Initialize] *)
  DxcCreateInstance_Utils : bool;
  DxcCreateInstance_Compiler : bool;
  CreateDefaultIncludeHandler : bool;
  D3DCompile : string -> option string -> list ShaderMacro -> string ->
               string -> Z -> D3DCompileResult;
  DxcCompile : string -> list string -> DxcResult
}.

(* ================================================================= *)
(** ** Streams and buffers *)

(** A buffer of [n] uninitialised bytes. *)
Definition uninitialized (junk : nat -> byte) (n : nat) : list byte :=
  map junk (seq 0 n).

(** [stream.read(buf, length buf)] when the stream still holds [avail]:
    the bytes read overwrite the front of the buffer, the rest of the
    buffer keeps what it held. *)
Definition read_into (buf avail : list byte) : list byte :=
  take (length buf) avail ++ drop (length avail) buf.

(** [v.resize(n)] on a [std::vector<uint8>]: the first [n] bytes of [v],
    filled up with zero bytes. *)
Definition vector_resize (n : nat) (v : list byte) : list byte :=
  resize n Byte.x00 v.

(* ================================================================= *)
(** ** ShaderCache *)

Definition CACHE_VERSION : Z := 1.
Definition CACHE_MAGIC : list byte := list_byte_of_string "XESS".

Record CacheHeader := {
  header_magic : list byte;       (* char magic[4] *)
  header_version : Z;             (* uint32 *)
  header_hash : Z;                (* uint64 *)
  header_size : Z                 (* uint32 *)
}.

(** [sizeof(CacheHeader)]: 4 + 4 + 8 + 4 bytes of fields and 4 bytes of
    tail padding for the 8-byte alignment of [hash]. *)
Definition sizeof_CacheHeader : nat := 24.

(** The object representation of a header (little-endian host); the
    padding holds whatever the stack held. *)
Definition CacheHeader_bytes (junk : nat -> byte) (h : CacheHeader) : list byte :=
  take 4 (header_magic h) ++ le_split 4 (header_version h)
    ++ le_split 8 (header_hash h) ++ le_split 4 (header_size h)
    ++ map junk (seq 20 4).

(** Reading the fields back out of an object representation. *)
Definition CacheHeader_of_bytes (buf : list byte) : CacheHeader := {|
  header_magic := take 4 buf;
  header_version := le_combine (take 4 (drop 4 buf));
  header_hash := le_combine (take 8 (drop 8 buf));
  header_size := le_combine (take 4 (drop 16 buf))
|}.

Record CacheEntry := {
  entry_bytecode : list byte;
  entry_hash : Z;
  entry_timestamp : Z
}.

Record ShaderCache := {
  m_cacheDirectory : string;
  m_memoryCache : gmap string CacheEntry
}.

(** A default-constructed cache. *)
Definition ShaderCache_new : ShaderCache := {|
  m_cacheDirectory := "cache/shaders/";
  m_memoryCache := ∅
|}.

Definition set_memoryCache (m : gmap string CacheEntry) (c : ShaderCache) : ShaderCache :=
  {| m_cacheDirectory := m_cacheDirectory c; m_memoryCache := m |}.

(** [ss << std::hex << hash] *)
Definition hex (x : Z) : string :=
  HexadecimalString.NilZero.string_of_uint (N.to_hex_uint (Z.to_N x)).

Definition GetCacheFilePath (P : Platform) (c : ShaderCache)
    (filename : string) (hash : Z) : string :=
  m_cacheDirectory c +:+ path_stem P filename +:+ "_" +:+ hex hash +:+ ".cache".

(** [std::ifstream]/[std::ofstream] on [path] opens. *)
Definition is_open (w : World) (path : string) : bool :=
  negb (bool_decide (path ∈ denied w)).

(** The disk half of [GetCachedShader] (from "Check disk cache" on).
    The path is built and [std::filesystem::exists] is asked before the
    [try] block: when there is no such file the call says so, or, when
    the status of the path cannot be read, throws a [filesystem_error]
    that leaves the function. *)
Definition GetCachedShader_disk (P : Platform) (c : ShaderCache) (w : World)
    (filename : string) (hash : Z) (bytecode : list byte)
    : Outcome (bool * list byte * ShaderCache) :=
  let cachePath := GetCacheFilePath P c filename hash in
  match files w !! cachePath with
  | None =>
    if bool_decide (cachePath ∈ status_errors w) then Throws
    else Returns (false, bytecode, c)
  | Some f =>
    if negb (is_open w cachePath) then Returns (false, bytecode, c)
    else
      let header := CacheHeader_of_bytes
        (read_into (uninitialized (stack_junk P) sizeof_CacheHeader) (file_data f)) in
      if negb (bool_decide (header_magic header = CACHE_MAGIC))
         || negb (header_version header =? CACHE_VERSION)
         || negb (header_hash header =? hash)
      then Returns (false, bytecode, c)
      else
        let bytecode' :=
          read_into (vector_resize (Z.to_nat (header_size header)) bytecode)
                    (drop sizeof_CacheHeader (file_data f)) in
        let entry := {| entry_bytecode := bytecode';
                        entry_hash := hash;
                        entry_timestamp := file_mtime f |} in
        Returns (true, bytecode',
                 set_memoryCache (<[filename := entry]> (m_memoryCache c)) c)
  end.

(** [bool ShaderCache::GetCachedShader(filename, hash, bytecode)]:
    the returned flag, the out-parameter and the cache afterwards, or
    the exception that leaves the function. *)
Definition GetCachedShader (P : Platform) (c : ShaderCache) (w : World)
    (filename : string) (hash : Z) (bytecode : list byte)
    : Outcome (bool * list byte * ShaderCache) :=
  match m_memoryCache c !! filename with
  | Some it =>
    if entry_hash it =? hash then Returns (true, entry_bytecode it, c)
    else GetCachedShader_disk P c w filename hash bytecode
  | None => GetCachedShader_disk P c w filename hash bytecode
  end.

(** [void ShaderCache::CacheShader(filename, hash, bytecode)] *)
Definition CacheShader (P : Platform) (c : ShaderCache) (w : World)
    (filename : string) (hash : Z) (bytecode : list byte)
    : ShaderCache * World :=
  if negb (is_open w (m_cacheDirectory c)) then (c, w)
  else
    let cachePath := GetCacheFilePath P c filename hash in
    if negb (is_open w cachePath) then (c, w)
    else
      let header := {| header_magic := CACHE_MAGIC;
                       header_version := CACHE_VERSION;
                       header_hash := hash;
                       header_size := wrap32 (Z.of_nat (length bytecode)) |} in
      let f := {| file_data := CacheHeader_bytes (stack_junk P) header ++ bytecode;
                  file_mtime := now w |} in
      let entry := {| entry_bytecode := bytecode;
                      entry_hash := hash;
                      entry_timestamp := now w |} in
      (set_memoryCache (<[filename := entry]> (m_memoryCache c)) c,
       set_files (<[cachePath := f]> (files w)) w).

(** [void ShaderCache::ClearCache()]. Of the empty path
    [std::filesystem::exists] is false, and nothing is removed; any
    other directory is stored with its separator at the end, and the
    files below it are those it is a prefix of. What the [try] block
    throws is caught. *)
Definition ClearCache (c : ShaderCache) (w : World) : ShaderCache * World :=
  let c' := set_memoryCache ∅ c in
  if String.eqb (m_cacheDirectory c) "" then (c', w)
  else if negb (is_open w (m_cacheDirectory c)) then (c', w)
  else
    (c', set_files
           (filter (fun kv => String.prefix (m_cacheDirectory c) kv.1 = false) (files w))
           w).

(** [void ShaderCache::SetCacheDirectory(directory)] *)
Definition SetCacheDirectory (c : ShaderCache) (directory : string) : ShaderCache :=
  let last := String.substring (String.length directory - 1)%nat 1 directory in
  let d := if negb (String.eqb directory "") && negb (String.eqb last "/")
              && negb (String.eqb last "\")
           then directory +:+ "/" else directory in
  {| m_cacheDirectory := d; m_memoryCache := m_memoryCache c |}.

(** The test [it != m_memoryCache.end() && it->second.hash == hash]. *)
Definition memory_hit (c : ShaderCache) (filename : string) (hash : Z) : bool :=
  match m_memoryCache c !! filename with
  | Some it => entry_hash it =? hash
  | None => false
  end.

(** The cache object of a fresh process that uses the same directory. *)
Definition restart (c : ShaderCache) : ShaderCache :=
  {| m_cacheDirectory := m_cacheDirectory c; m_memoryCache := ∅ |}.

(* ================================================================= *)
(** ** ShaderCompiler *)

Record ShaderCompiler := {
  m_dxcUtils : bool;              (* the pointer is not nullptr *)
  m_dxcCompiler : bool;
  m_includeHandler : bool;
  m_useLegacyCompiler : bool;
  m_cache : ShaderCache;
  m_cacheEnabled : bool;
  m_hotReloadEnabled : bool;
  m_fileTimestamps : gmap string Z
}.

(** The member initialisers of the class. *)
Definition ShaderCompiler_new : ShaderCompiler := {|
  m_dxcUtils := false;
  m_dxcCompiler := false;
  m_includeHandler := false;
  m_useLegacyCompiler := false;
  m_cache := ShaderCache_new;
  m_cacheEnabled := true;
  m_hotReloadEnabled := false;
  m_fileTimestamps := ∅
|}.

Definition set_cache (k : ShaderCache) (c : ShaderCompiler) : ShaderCompiler := {|
  m_dxcUtils := m_dxcUtils c; m_dxcCompiler := m_dxcCompiler c;
  m_includeHandler := m_includeHandler c;
  m_useLegacyCompiler := m_useLegacyCompiler c;
  m_cache := k;
  m_cacheEnabled := m_cacheEnabled c;
  m_hotReloadEnabled := m_hotReloadEnabled c;
  m_fileTimestamps := m_fileTimestamps c
|}.

(** [bool ShaderCompiler::Initialize()] *)
Definition Initialize (P : Platform) (c : ShaderCompiler) : bool * ShaderCompiler :=
  if DxcCreateInstance_Utils P && DxcCreateInstance_Compiler P
     && CreateDefaultIncludeHandler P
  then
    (true, {| m_dxcUtils := true; m_dxcCompiler := true; m_includeHandler := true;
              m_useLegacyCompiler := false;
              m_cache := m_cache c; m_cacheEnabled := m_cacheEnabled c;
              m_hotReloadEnabled := m_hotReloadEnabled c;
              m_fileTimestamps := m_fileTimestamps c |})
  else
    (true, {| m_dxcUtils := false; m_dxcCompiler := false; m_includeHandler := false;
              m_useLegacyCompiler := true;
              m_cache := m_cache c; m_cacheEnabled := m_cacheEnabled c;
              m_hotReloadEnabled := m_hotReloadEnabled c;
              m_fileTimestamps := m_fileTimestamps c |}).

(** All three calls of [Initialize] succeeded. *)
Definition dxc_initialized (P : Platform) : bool :=
  DxcCreateInstance_Utils P && DxcCreateInstance_Compiler P
  && CreateDefaultIncludeHandler P.

(** A compiler that does not use the legacy backend holds its DXC
    interfaces. *)
Definition holds_dxc (c : ShaderCompiler) : Prop :=
  m_useLegacyCompiler c = false ->
  m_dxcUtils c = true /\ m_dxcCompiler c = true.

(** [void ShaderCompiler::Shutdown()] *)
Definition Shutdown (c : ShaderCompiler) : ShaderCompiler := {|
  m_dxcUtils := false; m_dxcCompiler := false; m_includeHandler := false;
  m_useLegacyCompiler := m_useLegacyCompiler c;
  m_cache := m_cache c; m_cacheEnabled := m_cacheEnabled c;
  m_hotReloadEnabled := m_hotReloadEnabled c;
  m_fileTimestamps := ∅
|}.

Definition SetCacheEnabled (c : ShaderCompiler) (enabled : bool) : ShaderCompiler := {|
  m_dxcUtils := m_dxcUtils c; m_dxcCompiler := m_dxcCompiler c;
  m_includeHandler := m_includeHandler c;
  m_useLegacyCompiler := m_useLegacyCompiler c;
  m_cache := m_cache c;
  m_cacheEnabled := enabled;
  m_hotReloadEnabled := m_hotReloadEnabled c;
  m_fileTimestamps := m_fileTimestamps c
|}.

Definition EnableHotReload (c : ShaderCompiler) (enable : bool) : ShaderCompiler := {|
  m_dxcUtils := m_dxcUtils c; m_dxcCompiler := m_dxcCompiler c;
  m_includeHandler := m_includeHandler c;
  m_useLegacyCompiler := m_useLegacyCompiler c;
  m_cache := m_cache c;
  m_cacheEnabled := m_cacheEnabled c;
  m_hotReloadEnabled := enable;
  m_fileTimestamps := m_fileTimestamps c
|}.

(** [void ShaderCompiler::CheckForShaderChanges()]: both branches return
    without doing anything. *)
Definition CheckForShaderChanges (c : ShaderCompiler) : ShaderCompiler :=
  if negb (m_hotReloadEnabled c) then c else c.

Definition IsShaderModelSupported (c : ShaderCompiler) (model : ShaderModel) : bool :=
  if m_useLegacyCompiler c then ShaderModel_le model SM_5_1
  else ShaderModel_le model SM_6_4.

Definition GetMaxSupportedShaderModel (c : ShaderCompiler) : ShaderModel :=
  if m_useLegacyCompiler c then SM_5_1 else SM_6_4.

Definition SupportsVariableRateShading (c : ShaderCompiler) : bool :=
  negb (m_useLegacyCompiler c).
Definition SupportsMeshShaders (c : ShaderCompiler) : bool :=
  negb (m_useLegacyCompiler c).
Definition SupportsRaytracing (c : ShaderCompiler) : bool :=
  negb (m_useLegacyCompiler c).
Definition SupportsWaveIntrinsics (c : ShaderCompiler) : bool :=
  negb (m_useLegacyCompiler c).

(** [std::to_wstring] / [std::to_string] of an unsigned value. *)
Definition to_string (n : Z) : string :=
  DecimalString.NilZero.string_of_uint (N.to_uint (Z.to_N n)).

Definition GetTargetProfile (type : ShaderType) (model : ShaderModel) : string :=
  let profile :=
    match type with
    | Vertex => "vs_"
    | Hull => "hs_"
    | Domain => "ds_"
    | Geometry => "gs_"
    | Pixel => "ps_"
    | Compute => "cs_"
    | _ => "vs_"
    end in
  let major := Z.shiftr (ShaderModel_value model) 4 in
  let minor := Z.land (ShaderModel_value model) 0xF in
  profile +:+ to_string major +:+ "_" +:+ to_string minor.

Definition BuildCompilerArguments (options : CompileOptions) : list string :=
  let args := [] in
  let args := if enableDebugInfo options then args ++ ["-Zi"; "-Qembed_debug"] else args in
  let args :=
    if enableOptimization options then
      match optimizationLevel options with
      | 0 => args ++ ["-O0"]
      | 1 => args ++ ["-O1"]
      | 2 => args ++ ["-O2"]
      | 3 => args ++ ["-O3"]
      | _ => args
      end
    else args ++ ["-Od"] in
  let args := if warningsAsErrors options then args ++ ["-WX"] else args in
  let args := if ieee754Compliance options then args ++ ["-Gis"] else args in
  let args := if enableUnboundedResourceArrays options
              then args ++ ["-enable-unbounded-descriptor-tables"] else args in
  args.

(** [std::string ShaderCompiler::LoadShaderSource(filename)] *)
Definition LoadShaderSource (w : World) (filename : string) : string :=
  match files w !! filename with
  | Some f => if is_open w filename then string_of_list_byte (file_data f) else ""
  | None => ""
  end.

(** One line [hash ^= term + (hash << 6) + (hash >> 2)], where [term]
    is the value of the leading sum [x + 0x9e3779b9] in its C++ type. *)
Definition hash_mix (hash term : Z) : Z :=
  xor64 hash (add64 (add64 term (shl64 hash 6)) (shr64 hash 2)).

Definition bool_to_int (b : bool) : Z := if b then 1 else 0.

(** [uint64 ShaderCompiler::CalculateSourceHash(source, options)].
    The literal [0x9e3779b9] has type [unsigned int]: added to an [int]
    or a [uint32] the sum is taken modulo 2^32, added to a [uint64] or a
    [size_t] modulo 2^64. *)
Definition CalculateSourceHash (P : Platform) (source : string)
    (options : CompileOptions) : Z :=
  let hash := wrap64 (std_hash P source) in
  let hash := hash_mix hash (add64 (ShaderModel_value (targetModel options)) 0x9e3779b9) in
  let hash := hash_mix hash (add32 (bool_to_int (enableDebugInfo options)) 0x9e3779b9) in
  let hash := hash_mix hash (add32 (bool_to_int (enableOptimization options)) 0x9e3779b9) in
  let hash := hash_mix hash (add32 (wrap32 (optimizationLevel options)) 0x9e3779b9) in
  fold_left
    (fun hash macro =>
       hash_mix hash
         (add64 (wrap64 (std_hash P (macro_name macro +:+ "=" +:+ macro_definition macro)))
                0x9e3779b9))
    (macros options) hash.

(** The five reflection containers of a result are empty. *)
Definition reflection_empty (r : CompiledShader) : Prop :=
  inputLayout r = [] /\ constantBufferBindings r = ∅ /\ textureBindings r = ∅
  /\ samplerBindings r = ∅ /\ uavBindings r = ∅.

(** [void ShaderCompiler::ExtractReflectionData(bytecode, shader)] *)
Definition ExtractReflectionData (code : list byte)
    (shader : CompiledShader) : CompiledShader * list Call :=
  ({| bytecode := bytecode shader; disassembly := disassembly shader;
      errors := errors shader; warnings := warnings shader;
      success := success shader;
      inputLayout := [];
      constantBufferBindings := ∅;
      textureBindings := ∅;
      samplerBindings := ∅;
      uavBindings := ∅ |},
   [Call_ExtractReflectionData code]).

(** Flag values of d3dcompiler.h. *)
Definition D3DCOMPILE_DEBUG : Z := Z.shiftl 1 0.
Definition D3DCOMPILE_SKIP_OPTIMIZATION : Z := Z.shiftl 1 2.
Definition D3DCOMPILE_IEEE_STRICTNESS : Z := Z.shiftl 1 13.
Definition D3DCOMPILE_OPTIMIZATION_LEVEL3 : Z := Z.shiftl 1 15.
Definition D3DCOMPILE_WARNINGS_ARE_ERRORS : Z := Z.shiftl 1 18.

(** The [switch (type)] at the head of [CompileWithLegacyCompiler];
    [None] is the [default:] label. *)
Definition legacy_profile (type : ShaderType) : option string :=
  match type with
  | Vertex => Some "vs_5_0"
  | Hull => Some "hs_5_0"
  | Domain => Some "ds_5_0"
  | Geometry => Some "gs_5_0"
  | Pixel => Some "ps_5_0"
  | Compute => Some "cs_5_0"
  | _ => None
  end.

Definition legacy_flags (options : CompileOptions) : Z :=
  let flags := 0 in
  let flags := if enableDebugInfo options
               then Z.lor flags (Z.lor D3DCOMPILE_DEBUG D3DCOMPILE_SKIP_OPTIMIZATION)
               else flags in
  let flags := if enableOptimization options && negb (enableDebugInfo options)
               then Z.lor flags D3DCOMPILE_OPTIMIZATION_LEVEL3 else flags in
  let flags := if warningsAsErrors options
               then Z.lor flags D3DCOMPILE_WARNINGS_ARE_ERRORS else flags in
  let flags := if ieee754Compliance options
               then Z.lor flags D3DCOMPILE_IEEE_STRICTNESS else flags in
  flags.

(** [CompiledShader ShaderCompiler::CompileWithLegacyCompiler(...) const] *)
Definition CompileWithLegacyCompiler (P : Platform)
    (source entryPoint : string) (type : ShaderType)
    (options : CompileOptions) (sourceName : string)
    : CompiledShader * list Call :=
  let t := [EnterBackend Legacy] in
  let result := CompiledShader_new in
  match legacy_profile type with
  | None => (push_error "Unsupported shader type for legacy compiler" result, t)
  | Some profile =>
    let flags := legacy_flags options in
    let defines := macros options in
    let name := if String.eqb sourceName "" then None else Some sourceName in
    let t := t ++ [Call_D3DCompile source name defines entryPoint profile flags] in
    let r := D3DCompile P source name defines entryPoint profile flags in
    let result :=
      match d3d_succeeded r, d3d_bytecodeBlob r with
      | true, Some blob => set_success true (set_bytecode blob result)
      | _, _ => result
      end in
    let result :=
      match d3d_errorBlob r with
      | Some errorText =>
        if negb (d3d_succeeded r) then push_error errorText result
        else push_warning errorText result
      | None => result
      end in
    let result :=
      if negb (d3d_succeeded r) && bool_decide (errors result = [])
      then push_error "Unknown compilation error" result else result in
    (result, t)
  end.

(** How a block of a function ends. *)
Inductive Flow (A : Type) :=
| Continue (a : A)            (* control reaches the end of the block *)
| Return_now (a : A)          (* a [return] statement inside the block *)
| Crash.                      (* a call through a null pointer *)
Arguments Continue {A} a.
Arguments Return_now {A} a.
Arguments Crash {A}.

(** The [else] branch "Use DXC for SM 6.0+" of [CompileFromSource]:
    the [try] block and its [catch]. *)
Definition CompileWithDxc (P : Platform) (c : ShaderCompiler)
    (source entryPoint : string) (type : ShaderType)
    (options : CompileOptions) (sourceName : string)
    : Flow (CompiledShader * list Call) :=
  let t := [EnterBackend Modern] in
  let result := CompiledShader_new in
  let targetProfile := GetTargetProfile type (targetModel options) in
  let arguments :=
    BuildCompilerArguments options ++ ["-E"; entryPoint; "-T"; targetProfile] in
  match DxcCompile P source arguments with
  | DxcThrows what =>
    Continue (push_error ("Exception during compilation: " +:+ what) result, t)
  | DxcCreateBlobFailed =>
    if negb (m_dxcUtils c) then Crash
    else Return_now (push_error "Failed to create source blob" result, t)
  | DxcCompileFailed =>
    if negb (m_dxcUtils c) || negb (m_dxcCompiler c) then Crash
    else Continue (push_error "DXC compilation failed" result,
                   t ++ [Call_DxcCompile source arguments])
  | DxcCompiled compileStatus_ok object errorBlob =>
    if negb (m_dxcUtils c) || negb (m_dxcCompiler c) then Crash
    else
      let t := t ++ [Call_DxcCompile source arguments] in
      let result :=
        match compileStatus_ok, object with
        | true, Some blob => set_success true (set_bytecode blob result)
        | _, _ => result
        end in
      let result :=
        match errorBlob with
        | Some errorText =>
          if (0 <? String.length errorText)%nat then
            if negb compileStatus_ok then push_error errorText result
            else push_warning errorText result
          else result
        | None => result
        end in
      Continue (result, t)
  end.

(** The backend [CompileFromSource] hands a request that was not found
    in the cache to: the test "Use legacy compiler for SM 5.x or if DXC
    is not available". *)
Definition selected_backend (c : ShaderCompiler) (options : CompileOptions) : Backend :=
  if m_useLegacyCompiler c || ShaderModel_le (targetModel options) SM_5_1
  then Legacy else Modern.

(** The [if]/[else] over the two backends in [CompileFromSource]. *)
Definition CompileWithBackend (P : Platform) (c : ShaderCompiler)
    (source entryPoint : string) (type : ShaderType)
    (options : CompileOptions) (sourceName : string)
    : Flow (CompiledShader * list Call) :=
  match selected_backend c options with
  | Legacy =>
    Continue (CompileWithLegacyCompiler P source entryPoint type options sourceName)
  | Modern => CompileWithDxc P c source entryPoint type options sourceName
  end.



(** The parameters of a compile request. *)
Record CompileRequest := {
  request_source : string;
  request_entryPoint : string;
  request_type : ShaderType;
  request_options : CompileOptions
}.

(** The fingerprint under which [CompileFromSource] looks a request up
    and stores its result: [CalculateSourceHash(source, options)]. *)
Definition request_fingerprint (P : Platform) (q : CompileRequest) : Z :=
  CalculateSourceHash P (request_source q) (request_options q).

(** The block "Check cache if enabled" that opens [CompileFromSource]:
    whether the shader was found, the bytecode, and the cache afterwards. *)
Definition cache_lookup (P : Platform) (c : ShaderCompiler) (w : World)
    (source : string) (options : CompileOptions) (sourceName : string)
    : Outcome (bool * list byte * ShaderCache) :=
  if m_cacheEnabled c && negb (String.eqb sourceName "") then
    GetCachedShader P (m_cache c) w sourceName
                    (CalculateSourceHash P source options) []
  else Returns (false, [], m_cache c).

(** The lookup of a request ends in the [filesystem_error] of
    [std::filesystem::exists]: the cache is on, the request has a source
    name, the memory tier does not answer, there is no cache file and
    the status of its path cannot be read. *)
Definition lookup_throws (P : Platform) (c : ShaderCompiler) (w : World)
    (source : string) (options : CompileOptions) (sourceName : string) : Prop :=
  let hash := CalculateSourceHash P source options in
  let cachePath := GetCacheFilePath P (m_cache c) sourceName hash in
  m_cacheEnabled c = true
  /\ sourceName <> ""
  /\ memory_hit (m_cache c) sourceName hash = false
  /\ files w !! cachePath = None
  /\ cachePath ∈ status_errors w.

(** [CompiledShader ShaderCompiler::CompileFromSource(source, entryPoint,
    type, options, sourceName)]: the result, the compiler and the world
    afterwards, and the calls made. *)
Definition CompileFromSource (P : Platform) (c : ShaderCompiler) (w : World)
    (source entryPoint : string) (type : ShaderType)
    (options : CompileOptions) (sourceName : string)
    : Outcome (CompiledShader * ShaderCompiler * World * list Call) :=
  let use_cache := m_cacheEnabled c && negb (String.eqb sourceName "") in
  match cache_lookup P c w source options sourceName with
  | Throws => Throws
  | AccessViolation => AccessViolation
  | Returns (found, cachedBytecode, cache1) =>
  let c := set_cache cache1 c in
  if found then
    let result := set_success true (set_bytecode cachedBytecode CompiledShader_new) in
    let '(result, t) := ExtractReflectionData (bytecode result) result in
    Returns (result, c, w, t)
  else
    match CompileWithBackend P c source entryPoint type options sourceName with
    | Crash => AccessViolation
    | Return_now (result, t) => Returns (result, c, w, t)
    | Continue (result, t) =>
      if success result then
        let '(result, t') := ExtractReflectionData (bytecode result) result in
        if use_cache then
          let '(cache2, w) :=
            CacheShader P (m_cache c) w sourceName
                        (CalculateSourceHash P source options) (bytecode result) in
          Returns (result, set_cache cache2 c, w, t ++ t')
        else Returns (result, c, w, t ++ t')
      else Returns (result, c, w, t)
    end
  end.

(** [CompiledShader ShaderCompiler::CompileFromFile(filename, entryPoint,
    type, options)] *)
Definition CompileFromFile (P : Platform) (c : ShaderCompiler) (w : World)
    (filename entryPoint : string) (type : ShaderType)
    (options : CompileOptions)
    : Outcome (CompiledShader * ShaderCompiler * World * list Call) :=
  let source := LoadShaderSource w filename in
  if String.eqb source "" then
    Returns (push_error ("Failed to load shader file: " +:+ filename) CompiledShader_new,
             c, w, [])
  else CompileFromSource P c w source entryPoint type options filename.

(** The public operations of a [ShaderCompiler] other than [Initialize]. *)
Inductive Operation :=
| Op_CompileFromFile (filename entryPoint : string) (type : ShaderType)
                     (options : CompileOptions)
| Op_CompileFromSource (source entryPoint : string) (type : ShaderType)
                       (options : CompileOptions) (sourceName : string)
| Op_Shutdown
| Op_SetCacheEnabled (enabled : bool)
| Op_EnableHotReload (enable : bool)
| Op_CheckForShaderChanges
| Op_ClearCache
| Op_SetCacheDirectory (directory : string).

Definition run_operation (P : Platform) (c : ShaderCompiler) (w : World)
    (op : Operation) : Outcome (ShaderCompiler * World) :=
  match op with
  | Op_CompileFromFile filename entryPoint type options =>
    match CompileFromFile P c w filename entryPoint type options with
    | Returns (_, c, w, _) => Returns (c, w)
    | Throws => Throws
    | AccessViolation => AccessViolation
    end
  | Op_CompileFromSource source entryPoint type options sourceName =>
    match CompileFromSource P c w source entryPoint type options sourceName with
    | Returns (_, c, w, _) => Returns (c, w)
    | Throws => Throws
    | AccessViolation => AccessViolation
    end
  | Op_Shutdown => Returns (Shutdown c, w)
  | Op_SetCacheEnabled enabled => Returns (SetCacheEnabled c enabled, w)
  | Op_EnableHotReload enable => Returns (EnableHotReload c enable, w)
  | Op_CheckForShaderChanges => Returns (CheckForShaderChanges c, w)
  | Op_ClearCache =>
    let '(k, w) := ClearCache (m_cache c) w in Returns (set_cache k c, w)
  | Op_SetCacheDirectory directory =>
    Returns (set_cache (SetCacheDirectory (m_cache c) directory) c, w)
  end.

(** A program: operations one after the other, each preceded by what
    the rest of the system did to the world meanwhile. The program
    catches the exception of a request and goes on: the exception left
    the request before anything was changed. A fault ends it. *)
Fixpoint run_operations (P : Platform) (c : ShaderCompiler) (w : World)
    (ops : list ((World -> World) * Operation))
    : Outcome (ShaderCompiler * World) :=
  match ops with
  | [] => Returns (c, w)
  | (interference, op) :: rest =>
    match run_operation P c (interference w) op with
    | Returns (c, w) => run_operations P c w rest
    | Throws => run_operations P c (interference w) rest
    | AccessViolation => AccessViolation
    end
  end.

(* ================================================================= *)
(** ** Shader (Shader.h, Shader.cpp): loading and hot reload *)

(** [D3D_SHADER_INPUT_TYPE] is kept as its integer value. *)
Record ShaderResource := {
  resource_name : string;
  bindPoint : Z;
  bindCount : Z;
  resource_type : Z;
  resource_size : Z
}.

Record ShaderBinding := {
  constantBuffers : list ShaderResource;
  textures : list ShaderResource;
  samplers : list ShaderResource;
  uavs : list ShaderResource;
  binding_inputLayout : list InputElementDesc
}.

(** The Direct3D objects of the struct are left out. *)
Record CompiledD3DShader := {
  compilationResult : CompiledShader;
  binding : ShaderBinding
}.

Definition CompiledD3DShader_IsValid (s : CompiledD3DShader) : bool :=
  success (compilationResult s).

(** [ShaderManager::CompileShader] is declared in ShaderManager.h and
    defined outside the sources at hand: it is a parameter of the
    functions below. It returns a possibly null pointer, or throws. *)
Inductive ManagerResult :=
| ManagerThrows
| ManagerReturns (p : option CompiledD3DShader).

Definition ManagerCompile (Manager : Type) : Type :=
  Manager -> string -> string -> ShaderType -> CompileOptions -> string ->
  ManagerResult * Manager.

Record Shader := {
  m_type : ShaderType;
  m_shader : option CompiledD3DShader;
  m_sourceFile : string;
  m_sourceCode : string;
  m_entryPoint : string;
  m_compileOptions : CompileOptions;
  m_lastFileTime : Z;
  shader_hotReloadEnabled : bool;      (* Shader::m_hotReloadEnabled *)
  m_isLoading : bool
}.

(** A freshly constructed [Shader]. *)
Definition Shader_new : Shader := {|
  m_type := Vertex;
  m_shader := None;
  m_sourceFile := "";
  m_sourceCode := "";
  m_entryPoint := "";
  m_compileOptions := CompileOptions_default;
  m_lastFileTime := 0;
  shader_hotReloadEnabled := false;
  m_isLoading := false
|}.

(** [void Shader::EnableHotReload(bool)] *)
Definition Shader_EnableHotReload (s : Shader) (enable : bool) : Shader := {|
  m_type := m_type s; m_shader := m_shader s; m_sourceFile := m_sourceFile s;
  m_sourceCode := m_sourceCode s; m_entryPoint := m_entryPoint s;
  m_compileOptions := m_compileOptions s; m_lastFileTime := m_lastFileTime s;
  shader_hotReloadEnabled := enable; m_isLoading := m_isLoading s
|}.

(** [bool Shader::IsValid() const] *)
Definition Shader_IsValid (s : Shader) : bool :=
  match m_shader s with
  | Some p => CompiledD3DShader_IsValid p
  | None => false
  end.

(** [uint64 Shader::GetFileTime(filename) const] *)
Definition GetFileTime (w : World) (filename : string) : Z :=
  match files w !! filename with
  | Some f => file_mtime f
  | None => 0
  end.

(** [bool Shader::LoadFromFile(filename, entryPoint, type, options)] *)
Definition LoadFromFile {Manager : Type} (compile : ManagerCompile Manager)
    (s : Shader) (m : Manager) (w : World)
    (filename entryPoint : string) (type : ShaderType) (options : CompileOptions)
    : bool * Shader * Manager * list Call :=
  let s := {| m_type := type; m_shader := m_shader s; m_sourceFile := filename;
              m_sourceCode := m_sourceCode s; m_entryPoint := entryPoint;
              m_compileOptions := options; m_lastFileTime := m_lastFileTime s;
              shader_hotReloadEnabled := shader_hotReloadEnabled s;
              m_isLoading := m_isLoading s |} in
  match files w !! filename with
  | None => (false, s, m, [])
  | Some f =>
    if negb (is_open w filename) then (false, s, m, [])
    else
      let code := string_of_list_byte (file_data f) in
      let s := {| m_type := m_type s; m_shader := m_shader s;
                  m_sourceFile := m_sourceFile s;
                  m_sourceCode := code; m_entryPoint := m_entryPoint s;
                  m_compileOptions := m_compileOptions s;
                  m_lastFileTime := m_lastFileTime s;
                  shader_hotReloadEnabled := shader_hotReloadEnabled s;
                  m_isLoading := m_isLoading s |} in
      let t := [Call_ManagerCompileShader filename] in
      match compile m code entryPoint type options filename with
      | (ManagerThrows, m) => (false, s, m, t)
      | (ManagerReturns p, m) =>
        let s := {| m_type := m_type s; m_shader := p;
                    m_sourceFile := m_sourceFile s;
                    m_sourceCode := m_sourceCode s; m_entryPoint := m_entryPoint s;
                    m_compileOptions := m_compileOptions s;
                    m_lastFileTime := m_lastFileTime s;
                    shader_hotReloadEnabled := shader_hotReloadEnabled s;
                    m_isLoading := m_isLoading s |} in
        if Shader_IsValid s then
          (true,
           {| m_type := m_type s; m_shader := m_shader s;
              m_sourceFile := m_sourceFile s;
              m_sourceCode := m_sourceCode s; m_entryPoint := m_entryPoint s;
              m_compileOptions := m_compileOptions s;
              m_lastFileTime := GetFileTime w filename;
              shader_hotReloadEnabled := shader_hotReloadEnabled s;
              m_isLoading := m_isLoading s |},
           m, t)
        else (false, s, m, t)
      end
  end.

(** [void Shader::CheckForReload()] *)
Definition CheckForReload {Manager : Type} (compile : ManagerCompile Manager)
    (s : Shader) (m : Manager) (w : World) : Shader * Manager * list Call :=
  if negb (shader_hotReloadEnabled s) || String.eqb (m_sourceFile s) "" then (s, m, [])
  else
    let currentFileTime := GetFileTime w (m_sourceFile s) in
    if m_lastFileTime s <? currentFileTime then
      let '(_, s, m, t) :=
        LoadFromFile compile s m w (m_sourceFile s) (m_entryPoint s) (m_type s)
                     (m_compileOptions s) in
      (s, m, t)
    else (s, m, []).

Definition is_ManagerCompileShader (c : Call) : bool :=
  match c with
  | Call_ManagerCompileShader _ => true
  | _ => false
  end.

(** The number of recompilations a trace records. *)
Definition recompilations (t : list Call) : nat :=
  length (List.filter is_ManagerCompileShader t).

(* ================================================================= *)
(** ** ShaderCompiler.cpp: the utility functions *)

(** [std::string ShaderModelToString(ShaderModel model)] *)
Definition ShaderModelToString (model : ShaderModel) : string :=
  let major := Z.shiftr (ShaderModel_value model) 4 in
  let minor := Z.land (ShaderModel_value model) 0xF in
  to_string major +:+ "." +:+ to_string minor.

(** [std::string ShaderTypeToString(ShaderType type)]; the [default:]
    label is reached by no enumerator. *)
Definition ShaderTypeToString (type : ShaderType) : string :=
  match type with
  | Vertex => "Vertex"
  | Hull => "Hull"
  | Domain => "Domain"
  | Geometry => "Geometry"
  | Pixel => "Pixel"
  | Compute => "Compute"
  | Amplification => "Amplification"
  | Mesh => "Mesh"
  | RayGeneration => "RayGeneration"
  | Miss => "Miss"
  | ClosestHit => "ClosestHit"
  | AnyHit => "AnyHit"
  end.

(** [ShaderModel ParseShaderModel(const std::string& str)] *)
Definition ParseShaderModel (str : string) : ShaderModel :=
  if String.eqb str "5.0" then SM_5_0
  else if String.eqb str "5.1" then SM_5_1
  else if String.eqb str "6.0" then SM_6_0
  else if String.eqb str "6.1" then SM_6_1
  else if String.eqb str "6.2" then SM_6_2
  else if String.eqb str "6.3" then SM_6_3
  else if String.eqb str "6.4" then SM_6_4
  else SM_5_0.

(** [ShaderType ParseShaderType(const std::string& str)] *)
Definition ParseShaderType (str : string) : ShaderType :=
  if String.eqb str "vs" || String.eqb str "vertex" then Vertex
  else if String.eqb str "hs" || String.eqb str "hull" then Hull
  else if String.eqb str "ds" || String.eqb str "domain" then Domain
  else if String.eqb str "gs" || String.eqb str "geometry" then Geometry
  else if String.eqb str "ps" || String.eqb str "pixel" then Pixel
  else if String.eqb str "cs" || String.eqb str "compute" then Compute
  else Vertex.

(** The six shader types the legacy backend and [ParseShaderType] know. *)
Definition legacy_types : list ShaderType :=
  [Vertex; Hull; Domain; Geometry; Pixel; Compute].

(** The arguments of [BuildCompilerArguments] that choose an optimisation
    level: those that start with "-O". *)
Definition is_optimization_switch (argument : string) : bool :=
  String.prefix "-O" argument.

(** What every result of the compiler looks like: a success carries no
    error, a failure no bytecode, and there is at most one error or one
    warning, never both. *)
Definition result_invariant (r : CompiledShader) : Prop :=
  (success r = true -> errors r = [])
  /\ (success r = false -> bytecode r = [])
  /\ (length (errors r) <= 1)%nat
  /\ (length (warnings r) <= 1)%nat
  /\ (errors r <> [] -> warnings r = [])
  /\ disassembly r = "".

(* ================================================================= *)
(** ** Shader.cpp: loading from source *)

(** [bool Shader::LoadFromSource(source, entryPoint, type, options,
    sourceName)]. The function has no [try] block: when the manager
    throws, the exception leaves it ([None]) with the members already
    assigned. *)
Definition LoadFromSource {Manager : Type} (compile : ManagerCompile Manager)
    (s : Shader) (m : Manager)
    (source entryPoint : string) (type : ShaderType) (options : CompileOptions)
    (sourceName : string)
    : option bool * Shader * Manager * list Call :=
  let s := {| m_type := type; m_shader := m_shader s; m_sourceFile := sourceName;
              m_sourceCode := source; m_entryPoint := entryPoint;
              m_compileOptions := options; m_lastFileTime := m_lastFileTime s;
              shader_hotReloadEnabled := shader_hotReloadEnabled s;
              m_isLoading := m_isLoading s |} in
  let t := [Call_ManagerCompileShader sourceName] in
  match compile m source entryPoint type options sourceName with
  | (ManagerThrows, m) => (None, s, m, t)
  | (ManagerReturns p, m) =>
    let s := {| m_type := m_type s; m_shader := p;
                m_sourceFile := m_sourceFile s;
                m_sourceCode := m_sourceCode s; m_entryPoint := m_entryPoint s;
                m_compileOptions := m_compileOptions s;
                m_lastFileTime := m_lastFileTime s;
                shader_hotReloadEnabled := shader_hotReloadEnabled s;
                m_isLoading := m_isLoading s |} in
    (Some (Shader_IsValid s), s, m, t)
  end.

(** [uint32 Shader::GetBytecodeSize() const] *)
Definition GetBytecodeSize (s : Shader) : Z :=
  match m_shader s with
  | Some p => wrap32 (Z.of_nat (length (bytecode (compilationResult p))))
  | None => 0
  end.

(** [const std::vector<std::string>& Shader::GetErrors() const] *)
Definition GetErrors (s : Shader) : list string :=
  match m_shader s with
  | Some p => errors (compilationResult p)
  | None => []
  end.

(* ================================================================= *)
(** ** A concrete platform, for running the model *)

Definition is_separator (a : ascii) : bool :=
  Ascii.eqb a "/" || Ascii.eqb a "\".

(** The characters before the first separator. *)
Fixpoint until_separator (l : list ascii) : list ascii :=
  match l with
  | [] => []
  | a :: l => if is_separator a then [] else a :: until_separator l
  end.

(** The characters after the first dot, if there is one. *)
Fixpoint after_dot (l : list ascii) : option (list ascii) :=
  match l with
  | [] => None
  | a :: l => if Ascii.eqb a "." then Some l else after_dot l
  end.

(** The file name of a path without its last extension. *)
Definition sample_stem (p : string) : string :=
  let name := until_separator (rev (list_ascii_of_string p)) in
  match after_dot name with
  | Some (a :: l) => string_of_list_ascii (rev (a :: l))
  | _ => string_of_list_ascii (rev name)
  end.

(** The 64-bit FNV-1a hash of a string. *)
Definition fnv1a (s : string) : Z :=
  fold_left (fun h b => wrap64 (Z.lxor h (byte.unsigned b) * 1099511628211))
            (list_byte_of_string s) 14695981039346656037.

(** A platform on which DXC is there or not, and both toolchains give
    the same answer to every request. *)
Definition sample_platform (dxc_available : bool) (d3d : D3DCompileResult)
    (dxc : DxcResult) : Platform := {|
  path_stem := sample_stem;
  std_hash := fnv1a;
  stack_junk := fun _ => Byte.xcc;
  DxcCreateInstance_Utils := dxc_available;
  DxcCreateInstance_Compiler := dxc_available;
  CreateDefaultIncludeHandler := dxc_available;
  D3DCompile := fun _ _ _ _ _ _ => d3d;
  DxcCompile := fun _ _ => dxc
|}.

Definition sample_bytecode : list byte := list_byte_of_string "DXBC".

Definition sample_source : string :=
  "float4 main(): SV_Target { return float4(1,0,0,1); }".

Definition d3d_ok : D3DCompileResult := {|
  d3d_succeeded := true;
  d3d_bytecodeBlob := Some sample_bytecode;
  d3d_errorBlob := None
|}.

Definition d3d_fails : D3DCompileResult := {|
  d3d_succeeded := false;
  d3d_bytecodeBlob := None;
  d3d_errorBlob := Some "error X3000: syntax error"
|}.

Definition dxc_ok : DxcResult := DxcCompiled true (Some sample_bytecode) None.

Definition empty_world : World :=
  {| files := ∅; denied := ∅; status_errors := ∅; now := 1000 |}.

(** A legacy toolchain whose bytecode names what it compiled. *)
Definition telling_platform : Platform := {|
  path_stem := sample_stem;
  std_hash := fnv1a;
  stack_junk := fun _ => Byte.xcc;
  DxcCreateInstance_Utils := false;
  DxcCreateInstance_Compiler := false;
  CreateDefaultIncludeHandler := false;
  D3DCompile := fun _ _ _ entryPoint profile _ =>
    {| d3d_succeeded := true;
       d3d_bytecodeBlob := Some (list_byte_of_string (entryPoint +:+ "@" +:+ profile));
       d3d_errorBlob := None |};
  DxcCompile := fun _ _ => DxcCompileFailed
|}.

(** A record as [CacheShader] writes it, for fingerprint [0xabc] and the
    sample bytecode, and a world that holds it. *)
Definition sample_record : File := {|
  file_data := CACHE_MAGIC ++ le_split 4 CACHE_VERSION ++ le_split 8 0xabc
                 ++ le_split 4 4 ++ repeat Byte.xcc 4 ++ sample_bytecode;
  file_mtime := 900
|}.

Definition sample_disk : World := {|
  files := {[ "cache/shaders/Test_abc.cache" := sample_record ]};
  denied := ∅; status_errors := ∅;
  now := 1000
|}.

(** The same record with its first magic byte flipped. *)
Definition corrupt_disk : World := {|
  files := {[ "cache/shaders/Test_abc.cache" :=
               {| file_data := <[0%nat := Byte.x78]> (file_data sample_record);
                  file_mtime := 900 |} ]};
  denied := ∅; status_errors := ∅;
  now := 1000
|}.

(** A shader that declares a constant buffer, a texture and a sampler. *)
Definition textured_source : string :=
  "cbuffer Tint : register(b0) { float4 tint; }; Texture2D tex : register(t0); SamplerState smp : register(s0); float4 main(float2 uv : TEXCOORD0) : SV_Target { return tex.Sample(smp, uv) * tint; }".

Definition no_binding : ShaderBinding := {|
  constantBuffers := []; textures := []; samplers := []; uavs := [];
  binding_inputLayout := []
|}.

(** A manager that compiles nothing: every result is a failure. *)
Definition failing_manager : ManagerCompile unit :=
  fun m _ _ _ _ _ =>
    (ManagerReturns
       (Some {| compilationResult := push_error "error X3000" CompiledShader_new;
                binding := no_binding |}),
     m).

(** A manager that compiles everything. *)
Definition working_manager : ManagerCompile unit :=
  fun m _ _ _ _ _ =>
    (ManagerReturns
       (Some {| compilationResult :=
                  set_success true (set_bytecode sample_bytecode CompiledShader_new);
                binding := no_binding |}),
     m).

(** A shader under hot reload whose file was written at tick 5. *)
Definition watched_shader : Shader := {|
  m_type := Pixel;
  m_shader := None;
  m_sourceFile := "fx.hlsl";
  m_sourceCode := "";
  m_entryPoint := "main";
  m_compileOptions := CompileOptions_default;
  m_lastFileTime := 0;
  shader_hotReloadEnabled := true;
  m_isLoading := false
|}.

Definition watched_world : World := {|
  files := {[ "fx.hlsl" := {| file_data := list_byte_of_string sample_source;
                              file_mtime := 5 |} ]};
  denied := ∅; status_errors := ∅;
  now := 1000
|}.

(* ================================================================= *)
(** * Properties *)

(** ** Buffers and the record format *)

Lemma length_uninitialized (junk : nat -> byte) (n : nat) :
  length (uninitialized junk n) = n.
Proof. unfold uninitialized. by rewrite length_map, length_seq. Qed.

Lemma read_into_enough (buf avail : list byte) :
  (length buf <= length avail)%nat ->
  read_into buf avail = take (length buf) avail.
Proof.
  intros Hlen. unfold read_into.
  rewrite (drop_ge buf) by lia. apply app_nil_r.
Qed.

Lemma length_vector_resize (n : nat) (v : list byte) :
  length (vector_resize n v) = n.
Proof. apply length_resize. Qed.

(** Only the first 24 bytes of a buffer matter to the header fields. *)
Lemma CacheHeader_of_bytes_take (d : list byte) :
  CacheHeader_of_bytes (take sizeof_CacheHeader d) = CacheHeader_of_bytes d.
Proof.
  unfold CacheHeader_of_bytes, sizeof_CacheHeader.
  rewrite !skipn_firstn_comm, !take_take. reflexivity.
Qed.

(** A complete header on disk is read as it stands, whatever the local
    buffer held before. *)
Lemma read_header_complete (junk : nat -> byte) (d : list byte) :
  (sizeof_CacheHeader <= length d)%nat ->
  CacheHeader_of_bytes (read_into (uninitialized junk sizeof_CacheHeader) d)
  = CacheHeader_of_bytes d.
Proof.
  intros Hlen. rewrite read_into_enough; rewrite length_uninitialized; [|done].
  apply CacheHeader_of_bytes_take.
Qed.

Lemma length_CACHE_MAGIC : length CACHE_MAGIC = 4%nat.
Proof. reflexivity. Qed.

Lemma length_CacheHeader_bytes (junk : nat -> byte) (h : CacheHeader) :
  length (header_magic h) = 4%nat ->
  length (CacheHeader_bytes junk h) = sizeof_CacheHeader.
Proof.
  intros Hm. unfold CacheHeader_bytes.
  rewrite !length_app, !length_le_split, length_map, length_seq, length_take, Hm.
  reflexivity.
Qed.

Lemma take_drop_field (pre x post : list byte) (n m : nat) :
  length pre = n -> length x = m -> take m (drop n (pre ++ x ++ post)) = x.
Proof.
  intros Hn Hm. rewrite drop_app_length' by done. by apply take_app_length'.
Qed.

(** Writing a header and reading it back gives the fields, each reduced
    to the width of its type. *)
Lemma CacheHeader_roundtrip (junk : nat -> byte) (h : CacheHeader) (rest : list byte) :
  length (header_magic h) = 4%nat ->
  CacheHeader_of_bytes (CacheHeader_bytes junk h ++ rest)
  = {| header_magic := header_magic h;
       header_version := wrap32 (header_version h);
       header_hash := wrap64 (header_hash h);
       header_size := wrap32 (header_size h) |}.
Proof.
  intros Hm. unfold CacheHeader_of_bytes, CacheHeader_bytes.
  rewrite (take_ge (header_magic h)) by lia.
  rewrite <- !app_assoc.
  set (m := header_magic h) in *.
  set (v := le_split 4 (header_version h)).
  set (x := le_split 8 (header_hash h)).
  set (z := le_split 4 (header_size h)).
  assert (Hv : length v = 4%nat) by apply length_le_split.
  assert (Hx : length x = 8%nat) by apply length_le_split.
  assert (Hz : length z = 4%nat) by apply length_le_split.
  f_equal.
  - by apply take_app_length'.
  - rewrite (take_drop_field m v) by done. apply le_combine_split.
  - rewrite (app_assoc m v).
    rewrite (take_drop_field (m ++ v) x) by (rewrite ?length_app; lia).
    apply le_combine_split.
  - rewrite (app_assoc m v), (app_assoc (m ++ v) x).
    rewrite (take_drop_field ((m ++ v) ++ x) z) by (rewrite ?length_app; lia).
    apply le_combine_split.
Qed.

(** ** The cache store *)

Lemma GetCachedShader_memory_miss (P : Platform) (c : ShaderCache) (w : World)
    (filename : string) (hash : Z) (bytecode : list byte) :
  memory_hit c filename hash = false ->
  GetCachedShader P c w filename hash bytecode
  = GetCachedShader_disk P c w filename hash bytecode.
Proof.
  unfold memory_hit, GetCachedShader.
  destruct (m_memoryCache c !! filename) as [it|]; [|done].
  by intros ->.
Qed.

(** A lookup that finds no file, or a file it cannot open, is a miss,
    unless the status of the missing file cannot be read: then the
    exception leaves the lookup. *)
Lemma GetCachedShader_no_record (P : Platform) (c : ShaderCache) (w : World)
    (filename : string) (hash : Z) (bytecode : list byte) :
  memory_hit c filename hash = false ->
  files w !! GetCacheFilePath P c filename hash = None
  \/ is_open w (GetCacheFilePath P c filename hash) = false ->
  GetCachedShader P c w filename hash bytecode
  = match files w !! GetCacheFilePath P c filename hash with
    | None =>
      if bool_decide (GetCacheFilePath P c filename hash ∈ status_errors w)
      then Throws else Returns (false, bytecode, c)
    | Some _ => Returns (false, bytecode, c)
    end.
Proof.
  intros Hmiss Hfile. rewrite GetCachedShader_memory_miss by done.
  unfold GetCachedShader_disk.
  destruct (files w !! GetCacheFilePath P c filename hash) as [f|]; [|done].
  destruct Hfile as [Hnone | Hclosed]; [done|]. by rewrite Hclosed.
Qed.

(** A lookup never changes the cache when it misses, and never touches
    the caller's vector then. *)
Lemma GetCachedShader_miss (P : Platform) (c : ShaderCache) (w : World)
    (filename : string) (hash : Z) (bytecode out : list byte) (c' : ShaderCache) :
  GetCachedShader P c w filename hash bytecode = Returns (false, out, c') ->
  out = bytecode /\ c' = c.
Proof.
  unfold GetCachedShader, GetCachedShader_disk.
  repeat case_match; intros Heq; inversion Heq; done.
Qed.

(** What a lookup that reaches a whole record on disk does: it compares
    the three header fields and, when they all match, reads the payload. *)
Lemma GetCachedShader_disk_lookup (P : Platform) (c : ShaderCache) (w : World)
    (filename : string) (hash : Z) (bytecode : list byte) (f : File) :
  memory_hit c filename hash = false ->
  files w !! GetCacheFilePath P c filename hash = Some f ->
  is_open w (GetCacheFilePath P c filename hash) = true ->
  (sizeof_CacheHeader <= length (file_data f))%nat ->
  let header := CacheHeader_of_bytes (file_data f) in
  GetCachedShader P c w filename hash bytecode
  = if bool_decide (header_magic header = CACHE_MAGIC)
       && (header_version header =? CACHE_VERSION)
       && (header_hash header =? hash)
    then
      let out := read_into (vector_resize (Z.to_nat (header_size header)) bytecode)
                           (drop sizeof_CacheHeader (file_data f)) in
      Returns
        (true, out,
         set_memoryCache
           (<[filename := {| entry_bytecode := out; entry_hash := hash;
                             entry_timestamp := file_mtime f |}]> (m_memoryCache c)) c)
    else Returns (false, bytecode, c).
Proof.
  intros Hmiss Hfile Hopen Hlen header.
  rewrite GetCachedShader_memory_miss by done.
  unfold GetCachedShader_disk. rewrite Hfile, Hopen. cbn [negb].
  rewrite read_header_complete by done. fold header.
  destruct (bool_decide (header_magic header = CACHE_MAGIC)); [|done].
  destruct (header_version header =? CACHE_VERSION); [|done].
  by destruct (header_hash header =? hash).
Qed.

(** C1. After a miss in the memory tier, a record on disk (a file at the
    cache path that opens and holds a whole header) is a hit if and only
    if its magic is "XESS", its version is the current one and its
    fingerprint is the requested one. Any mismatch makes the lookup
    return false, with the cache and the caller's vector as they were;
    a hit puts the bytes read into the memory tier under the file name. *)
Theorem GetCachedShader_disk_record (P : Platform) (c : ShaderCache) (w : World)
    (filename : string) (hash : Z) (bytecode : list byte) (f : File) :
  memory_hit c filename hash = false ->
  files w !! GetCacheFilePath P c filename hash = Some f ->
  is_open w (GetCacheFilePath P c filename hash) = true ->
  (sizeof_CacheHeader <= length (file_data f))%nat ->
  let header := CacheHeader_of_bytes (file_data f) in
  exists found out c',
  GetCachedShader P c w filename hash bytecode = Returns (found, out, c') /\
  (found = true <->
     header_magic header = CACHE_MAGIC
     /\ header_version header = CACHE_VERSION
     /\ header_hash header = hash)
  /\ (found = false -> out = bytecode /\ c' = c)
  /\ (found = true ->
      out = read_into (vector_resize (Z.to_nat (header_size header)) bytecode)
                      (drop sizeof_CacheHeader (file_data f))
      /\ m_cacheDirectory c' = m_cacheDirectory c
      /\ m_memoryCache c'
         = <[filename := {| entry_bytecode := out;
                            entry_hash := hash;
                            entry_timestamp := file_mtime f |}]> (m_memoryCache c)).
Proof.
  intros Hmiss Hfile Hopen Hlen header.
  rewrite (GetCachedShader_disk_lookup P c w filename hash bytecode f) by done.
  fold header.
  destruct (bool_decide_reflect (header_magic header = CACHE_MAGIC)) as [Hm|Hm];
    cbn [andb].
  2: { eexists _, _, _. split; [reflexivity|].
       split; [|done]. split; [done|]. by intros [? _]. }
  destruct (Z.eqb_spec (header_version header) CACHE_VERSION) as [Hv|Hv];
    cbn [andb].
  2: { eexists _, _, _. split; [reflexivity|].
       split; [|done]. split; [done|]. by intros (_ & ? & _). }
  destruct (Z.eqb_spec (header_hash header) hash) as [Hh|Hh].
  2: { eexists _, _, _. split; [reflexivity|].
       split; [|done]. split; [done|]. by intros (_ & _ & ?). }
  cbv zeta. eexists _, _, _. split; [reflexivity|].
  split; [done|]. split; [done|]. done.
Qed.

(** C3. A shader stored with [CacheShader] is found again by a fresh
    cache object on the same directory, byte for byte: after the memory
    tier is gone, [GetCachedShader] with the same name and fingerprint
    returns true and the stored bytecode. (The fingerprint is a [uint64],
    the length fits the [uint32] size field of the record, and the cache
    file could be created.) *)
Theorem CacheShader_roundtrip (P : Platform) (c : ShaderCache) (w : World)
    (filename : string) (hash : Z) (bytecode old : list byte) :
  0 <= hash < 2 ^ 64 ->
  Z.of_nat (length bytecode) < 2 ^ 32 ->
  is_open w (m_cacheDirectory c) = true ->
  is_open w (GetCacheFilePath P c filename hash) = true ->
  let '(c1, w1) := CacheShader P c w filename hash bytecode in
  exists c2,
    GetCachedShader P (restart c1) w1 filename hash old
    = Returns (true, bytecode, c2)
    /\ (entry_bytecode <$> m_memoryCache c2 !! filename) = Some bytecode.
Proof.
  intros Hhash Hsize Hdir Hpath.
  unfold CacheShader. rewrite Hdir, Hpath. cbn [negb].
  set (h := {| header_magic := CACHE_MAGIC; header_version := CACHE_VERSION;
               header_hash := hash;
               header_size := wrap32 (Z.of_nat (length bytecode)) |}).
  set (f := {| file_data := CacheHeader_bytes (stack_junk P) h ++ bytecode;
               file_mtime := now w |}).
  set (c1 := set_memoryCache _ c).
  set (w1 := set_files _ w).
  assert (Hp : GetCacheFilePath P (restart c1) filename hash
               = GetCacheFilePath P c filename hash) by reflexivity.
  assert (Hhdr : length (CacheHeader_bytes (stack_junk P) h) = sizeof_CacheHeader)
    by (by apply length_CacheHeader_bytes).
  assert (Hlen : (sizeof_CacheHeader <= length (file_data f))%nat)
    by (cbn [file_data f]; rewrite length_app; lia).
  assert (Hfile : files w1 !! GetCacheFilePath P (restart c1) filename hash = Some f)
    by (rewrite Hp; apply lookup_insert_eq).
  assert (Hopen : is_open w1 (GetCacheFilePath P (restart c1) filename hash) = true)
    by (by rewrite Hp).
  rewrite (GetCachedShader_disk_lookup P (restart c1) w1 filename hash old f
             eq_refl Hfile Hopen Hlen).
  assert (Hrt : CacheHeader_of_bytes (file_data f)
                = {| header_magic := CACHE_MAGIC; header_version := CACHE_VERSION;
                     header_hash := hash;
                     header_size := Z.of_nat (length bytecode) |}).
  { cbn [file_data f]. rewrite CacheHeader_roundtrip by done.
    cbn [header_magic header_version header_hash header_size h].
    unfold wrap32, wrap64, CACHE_VERSION.
    rewrite (Z.mod_small hash) by lia.
    rewrite !(Z.mod_small (Z.of_nat (length bytecode))) by lia.
    reflexivity. }
  rewrite Hrt. cbn [header_magic header_version header_hash header_size].
  rewrite bool_decide_eq_true_2 by done. rewrite !Z.eqb_refl. cbn [andb].
  assert (Hbytes : read_into (vector_resize (Z.to_nat (Z.of_nat (length bytecode))) old)
                             (drop sizeof_CacheHeader (file_data f))
                   = bytecode).
  { cbn [file_data f]. rewrite drop_app_length' by done. rewrite Nat2Z.id.
    rewrite read_into_enough by (rewrite length_vector_resize; lia).
    rewrite length_vector_resize. apply take_ge. lia. }
  cbv zeta. rewrite Hbytes. eexists. split; [reflexivity|].
  cbn. by rewrite lookup_insert_eq.
Qed.

(** ** The two backends *)

Lemma Initialize_flag (P : Platform) (c : ShaderCompiler) :
  m_useLegacyCompiler (Initialize P c).2 = negb (dxc_initialized P).
Proof.
  unfold Initialize. fold (dxc_initialized P).
  by destruct (dxc_initialized P).
Qed.

Lemma Initialize_holds_dxc (P : Platform) (c : ShaderCompiler) :
  holds_dxc (Initialize P c).2.
Proof.
  unfold holds_dxc, Initialize. fold (dxc_initialized P).
  by destruct (dxc_initialized P).
Qed.

Lemma CompileWithLegacyCompiler_trace (P : Platform) (source entryPoint : string)
    (type : ShaderType) (options : CompileOptions) (sourceName : string) :
  (CompileWithLegacyCompiler P source entryPoint type options sourceName).2
  = EnterBackend Legacy ::
      match legacy_profile type with
      | Some profile =>
        [Call_D3DCompile source
           (if String.eqb sourceName "" then None else Some sourceName)
           (macros options) entryPoint profile (legacy_flags options)]
      | None => []
      end.
Proof.
  unfold CompileWithLegacyCompiler. by destruct (legacy_profile type).
Qed.

Lemma CompileWithDxc_trace (P : Platform) (c : ShaderCompiler)
    (source entryPoint : string) (type : ShaderType) (options : CompileOptions)
    (sourceName : string) (r : CompiledShader) (t : list Call) :
  CompileWithDxc P c source entryPoint type options sourceName = Continue (r, t)
  \/ CompileWithDxc P c source entryPoint type options sourceName = Return_now (r, t) ->
  exists t', t = EnterBackend Modern :: t'
    /\ forall x, In x t' -> exists arguments, x = Call_DxcCompile source arguments.
Proof.
  unfold CompileWithDxc. intros H.
  destruct (DxcCompile P source _) as [what| | |ok object errorBlob];
    repeat case_match; destruct H as [H|H]; inversion H; subst;
    eexists; (split; [reflexivity|]); cbn; intros x Hx;
    repeat (destruct Hx as [<-|Hx]; [by eexists|]); done.
Qed.

(** Whichever backend runs, it is the selected one, and it is recorded
    first; what follows are its toolchain calls. *)
Lemma CompileWithBackend_trace (P : Platform) (c : ShaderCompiler)
    (source entryPoint : string) (type : ShaderType) (options : CompileOptions)
    (sourceName : string) (r : CompiledShader) (t : list Call) :
  CompileWithBackend P c source entryPoint type options sourceName = Continue (r, t)
  \/ CompileWithBackend P c source entryPoint type options sourceName = Return_now (r, t) ->
  exists t', t = EnterBackend (selected_backend c options) :: t'
    /\ forall x, In x t' ->
       match x with
       | Call_D3DCompile _ _ _ _ _ _ | Call_DxcCompile _ _ => True
       | _ => False
       end.
Proof.
  unfold CompileWithBackend. destruct (selected_backend c options).
  - intros [H|H]; inversion H as [Heq].
    pose proof (CompileWithLegacyCompiler_trace P source entryPoint type options
                  sourceName) as Ht.
    rewrite Heq in Ht. cbn in Ht. subst t.
    eexists; split; [reflexivity|].
    intros x Hx. destruct (legacy_profile type); [|done].
    by destruct Hx as [<-|[]].
  - intros H. destruct (CompileWithDxc_trace _ _ _ _ _ _ _ _ _ H) as (t' & -> & Ht').
    exists t'. split; [done|]. intros x Hx. by destruct (Ht' x Hx) as [? ->].
Qed.

(** A result handed back by a [return] inside the DXC block is a failure. *)
Lemma CompileWithBackend_return_now (P : Platform) (c : ShaderCompiler)
    (source entryPoint : string) (type : ShaderType) (options : CompileOptions)
    (sourceName : string) (r : CompiledShader) (t : list Call) :
  CompileWithBackend P c source entryPoint type options sourceName = Return_now (r, t) ->
  success r = false /\ errors r <> [].
Proof.
  unfold CompileWithBackend, CompileWithDxc.
  destruct (selected_backend c options); [done|].
  repeat case_match; intros Hret; inversion Hret; done.
Qed.

(** ** The request cycle *)

Lemma set_cache_same (c : ShaderCompiler) : set_cache (m_cache c) c = c.
Proof. by destruct c. Qed.

Lemma ExtractReflectionData_result (code : list byte) (shader : CompiledShader) :
  let r := (ExtractReflectionData code shader).1 in
  bytecode r = bytecode shader /\ success r = success shader
  /\ errors r = errors shader /\ warnings r = warnings shader
  /\ reflection_empty r.
Proof. cbn. unfold reflection_empty. cbn. done. Qed.

Lemma cache_lookup_miss (P : Platform) (c : ShaderCompiler) (w : World)
    (source : string) (options : CompileOptions) (sourceName : string)
    (code : list byte) (k : ShaderCache) :
  cache_lookup P c w source options sourceName = Returns (false, code, k) ->
  k = m_cache c.
Proof.
  unfold cache_lookup. case_match.
  - intros Hmiss. by apply GetCachedShader_miss in Hmiss as [_ ->].
  - intros Heq. by inversion Heq.
Qed.

(** The three ways a request comes back: served from the cache, failed
    in the backend, or compiled (and then reflected and stored). *)
Lemma CompileFromSource_returned (P : Platform) (c : ShaderCompiler) (w : World)
    (source entryPoint : string) (type : ShaderType) (options : CompileOptions)
    (sourceName : string) (r : CompiledShader) (c' : ShaderCompiler)
    (w' : World) (t : list Call) :
  CompileFromSource P c w source entryPoint type options sourceName
  = Returns (r, c', w', t) ->
  (exists k, cache_lookup P c w source options sourceName
             = Returns (true, bytecode r, k)
     /\ success r = true /\ errors r = [] /\ reflection_empty r
     /\ c' = set_cache k c /\ w' = w
     /\ t = [Call_ExtractReflectionData (bytecode r)])
  \/ (exists code, cache_lookup P c w source options sourceName
                   = Returns (false, code, m_cache c))
     /\ ((success r = false /\ c' = c /\ w' = w
          /\ (CompileWithBackend P c source entryPoint type options sourceName
              = Continue (r, t)
              \/ CompileWithBackend P c source entryPoint type options sourceName
                 = Return_now (r, t)))
         \/ (exists r0 t0,
               CompileWithBackend P c source entryPoint type options sourceName
               = Continue (r0, t0)
               /\ success r0 = true
               /\ r = (ExtractReflectionData (bytecode r0) r0).1
               /\ t = t0 ++ [Call_ExtractReflectionData (bytecode r0)]
               /\ (c', w')
                  = if m_cacheEnabled c && negb (String.eqb sourceName "") then
                      let '(k, w1) :=
                        CacheShader P (m_cache c) w sourceName
                          (CalculateSourceHash P source options) (bytecode r0) in
                      (set_cache k c, w1)
                    else (c, w))).
Proof.
  unfold CompileFromSource.
  destruct (cache_lookup P c w source options sourceName)
    as [[[found code] k]| |] eqn:Hlookup; [|done|done].
  destruct found.
  - intros Heq. inversion Heq; subst. left. exists k. cbn.
    unfold reflection_empty. cbn. done.
  - pose proof (cache_lookup_miss _ _ _ _ _ _ _ _ Hlookup) as ->.
    rewrite set_cache_same.
    intros Heq. right. split; [by exists code|].
    destruct (CompileWithBackend P c source entryPoint type options sourceName)
      as [[r0 t0]|[r0 t0]|] eqn:Hbackend; [| |done].
    + destruct (success r0) eqn:Hsuccess.
      * right. exists r0, t0. split; [done|]. split; [done|].
        cbn in Heq.
        destruct (m_cacheEnabled c && negb (String.eqb sourceName "")).
        -- destruct (CacheShader P (m_cache c) w sourceName _ (bytecode r0))
             as [k w1] eqn:Hstore.
           by inversion Heq.
        -- by inversion Heq.
      * left. inversion Heq; subst. auto.
    + left. inversion Heq; subst.
      apply CompileWithBackend_return_now in Hbackend as [? _]. auto.
Qed.

(** A request that comes back leaves everything of the compiler but its
    cache as it was. *)
Lemma CompileFromSource_compiler (P : Platform) (c : ShaderCompiler) (w : World)
    (source entryPoint : string) (type : ShaderType) (options : CompileOptions)
    (sourceName : string) (r : CompiledShader) (c' : ShaderCompiler)
    (w' : World) (t : list Call) :
  CompileFromSource P c w source entryPoint type options sourceName
  = Returns (r, c', w', t) ->
  exists k, c' = set_cache k c.
Proof.
  intros Hret. apply CompileFromSource_returned in Hret
    as [(k & _ & _ & _ & _ & -> & _) | [_ [(_ & -> & _) | (r0 & t0 & _ & _ & _ & _ & Hcw)]]].
  - by exists k.
  - exists (m_cache c). by rewrite set_cache_same.
  - destruct (m_cacheEnabled c && negb (String.eqb sourceName "")).
    + destruct (CacheShader P (m_cache c) w sourceName _ (bytecode r0)) as [k w1].
      inversion Hcw. by exists k.
    + inversion Hcw. exists (m_cache c). by rewrite set_cache_same.
Qed.

(** The calls of a request that reached a backend: the selected backend
    is entered first, its toolchain calls follow, and reflection comes
    last, exactly when the result is a success. *)
Lemma CompileFromSource_trace (P : Platform) (c : ShaderCompiler) (w : World)
    (source entryPoint : string) (type : ShaderType) (options : CompileOptions)
    (sourceName : string) (r : CompiledShader) (c' : ShaderCompiler)
    (w' : World) (t : list Call) :
  CompileFromSource P c w source entryPoint type options sourceName
  = Returns (r, c', w', t) ->
  (success r = true /\ t = [Call_ExtractReflectionData (bytecode r)])
  \/ exists t0,
       (forall x, In x t0 ->
          match x with
          | Call_D3DCompile _ _ _ _ _ _ | Call_DxcCompile _ _ => True
          | _ => False
          end)
       /\ ((success r = false
            /\ t = EnterBackend (selected_backend c options) :: t0)
           \/ (success r = true
               /\ t = EnterBackend (selected_backend c options) :: t0
                      ++ [Call_ExtractReflectionData (bytecode r)])).
Proof.
  intros Hret. apply CompileFromSource_returned in Hret
    as [(k & _ & Hs & _ & _ & _ & _ & Ht)
       | [_ [(Hs & _ & _ & Hb) | (r0 & t0 & Hb & Hs & -> & -> & _)]]].
  - by left.
  - right. apply CompileWithBackend_trace in Hb as (t' & -> & Ht'). exists t'. auto.
  - right.
    destruct (CompileWithBackend_trace P c source entryPoint type options
                sourceName r0 t0 (or_introl Hb)) as (t' & -> & Ht').
    exists t'. split; [done|]. right. cbn. done.
Qed.

Lemma in_backend_calls (t0 : list Call) (x : Call) :
  (forall x, In x t0 ->
     match x with
     | Call_D3DCompile _ _ _ _ _ _ | Call_DxcCompile _ _ => True
     | _ => False
     end) ->
  In x t0 ->
  (forall b, x <> EnterBackend b) /\ (forall code, x <> Call_ExtractReflectionData code).
Proof. intros Hall Hx. specialize (Hall x Hx). by destruct x. Qed.

(** Which backend a returned request entered, if any. *)
Lemma CompileFromSource_entered (P : Platform) (c : ShaderCompiler) (w : World)
    (source entryPoint : string) (type : ShaderType) (options : CompileOptions)
    (sourceName : string) (r : CompiledShader) (c' : ShaderCompiler)
    (w' : World) (t : list Call) (b : Backend) :
  CompileFromSource P c w source entryPoint type options sourceName
  = Returns (r, c', w', t) ->
  In (EnterBackend b) t ->
  b = selected_backend c options.
Proof.
  intros Hret Hin. apply CompileFromSource_trace in Hret
    as [[_ ->] | (t0 & Hcalls & [[_ ->] | [_ ->]])].
  - by destruct Hin as [|[]].
  - destruct Hin as [Heq|Hin]; [by inversion Heq|].
    destruct (in_backend_calls t0 _ Hcalls Hin) as [Hne _]. by destruct (Hne b).
  - destruct Hin as [Heq|Hin]; [by inversion Heq|].
    apply in_app_or in Hin as [Hin|[|[]]]; [|done].
    destruct (in_backend_calls t0 _ Hcalls Hin) as [Hne _]. by destruct (Hne b).
Qed.


(** ** The compiler across its operations *)

Lemma run_operation_flag (P : Platform) (c : ShaderCompiler) (w : World)
    (op : Operation) (c' : ShaderCompiler) (w' : World) :
  run_operation P c w op = Returns (c', w') ->
  m_useLegacyCompiler c' = m_useLegacyCompiler c.
Proof.
  destruct op; cbn.
  - unfold CompileFromFile.
    destruct (String.eqb (LoadShaderSource w filename) "").
    + intros Heq. by inversion Heq.
    + destruct (CompileFromSource _ _ _ _ _ _ _ _) as [[[[r c1] w1] t]| |] eqn:Hret;
      [|done|done].
      intros Heq. inversion Heq; subst.
      by apply CompileFromSource_compiler in Hret as [k ->].
  - destruct (CompileFromSource _ _ _ _ _ _ _ _) as [[[[r c1] w1] t]| |] eqn:Hret;
      [|done|done].
    intros Heq. inversion Heq; subst.
    by apply CompileFromSource_compiler in Hret as [k ->].
  - intros Heq. by inversion Heq.
  - intros Heq. by inversion Heq.
  - intros Heq. by inversion Heq.
  - unfold CheckForShaderChanges. intros Heq. inversion Heq. by case_match.
  - destruct (ClearCache (m_cache c) w). intros Heq. by inversion Heq.
  - intros Heq. by inversion Heq.
Qed.

Lemma run_operations_flag (P : Platform) (ops : list ((World -> World) * Operation))
    (c : ShaderCompiler) (w : World) (c' : ShaderCompiler) (w' : World) :
  run_operations P c w ops = Returns (c', w') ->
  m_useLegacyCompiler c' = m_useLegacyCompiler c.
Proof.
  revert c w. induction ops as [|[interference op] ops IH]; intros c w; cbn.
  - intros Heq. by inversion Heq.
  - destruct (run_operation P c (interference w) op) as [[c1 w1]| |] eqn:Hop;
      [|by apply IH|done].
    intros Hrest. rewrite (IH _ _ Hrest). by eapply run_operation_flag.
Qed.

(** ** Claims about the compiler *)


(** C5. A request whose compilation fails leaves the compiler, and with it
    the memory tier of the cache, and the files on disk as they were; the
    same request made again enters the backend again. *)
Theorem failed_compile_is_not_cached (P : Platform) (c : ShaderCompiler) (w : World)
    (source entryPoint : string) (type : ShaderType) (options : CompileOptions)
    (sourceName : string) (r : CompiledShader) (c' : ShaderCompiler)
    (w' : World) (t : list Call) :
  CompileFromSource P c w source entryPoint type options sourceName
  = Returns (r, c', w', t) ->
  success r = false ->
  c' = c /\ w' = w
  /\ m_memoryCache (m_cache c') = m_memoryCache (m_cache c)
  /\ files w' = files w
  /\ CompileFromSource P c' w' source entryPoint type options sourceName
     = Returns (r, c', w', t)
  /\ In (EnterBackend (selected_backend c options)) t.
Proof.
  intros Hret Hfail.
  assert (Hsame : c' = c /\ w' = w).
  { apply CompileFromSource_returned in Hret
      as [(k & _ & Hs & _) | [_ [(_ & -> & -> & _) | (r0 & t0 & _ & Hs & -> & _)]]];
      [congruence|done|].
    cbn in Hfail. congruence. }
  destruct Hsame as [-> ->]. repeat split; try done.
  apply CompileFromSource_trace in Hret
    as [[Hs _] | (t0 & _ & [[_ ->] | [Hs _]])]; [congruence| |congruence].
  by left.
Qed.

(** C7 (as the code has it). Reflection extraction runs exactly for the
    results with [success = true], cache hits included, on the bytecode
    returned, and never for a failed result; what it leaves in the result
    is an empty input layout and four empty binding maps. *)
Theorem reflection_runs_on_success (P : Platform) (c : ShaderCompiler) (w : World)
    (source entryPoint : string) (type : ShaderType) (options : CompileOptions)
    (sourceName : string) (r : CompiledShader) (c' : ShaderCompiler)
    (w' : World) (t : list Call) :
  CompileFromSource P c w source entryPoint type options sourceName
  = Returns (r, c', w', t) ->
  (success r = true ->
     In (Call_ExtractReflectionData (bytecode r)) t /\ reflection_empty r)
  /\ (success r = false ->
      forall code, ~ In (Call_ExtractReflectionData code) t).
Proof.
  intros Hret. split.
  - intros Hok. split.
    + apply CompileFromSource_trace in Hret
        as [[_ ->] | (t0 & _ & [[Hs _] | [_ ->]])]; [by left|congruence|].
      right. apply in_or_app. right. by left.
    + apply CompileFromSource_returned in Hret
        as [(k & _ & _ & _ & Hempty & _)
           | [_ [(Hs & _) | (r0 & t0 & _ & _ & -> & _)]]]; [done|congruence|].
      apply ExtractReflectionData_result.
  - intros Hfail code Hin.
    apply CompileFromSource_trace in Hret
      as [[Hs _] | (t0 & Hcalls & [[_ ->] | [Hs _]])]; [congruence| |congruence].
    destruct Hin as [Heq|Hin]; [done|].
    destruct (in_backend_calls t0 _ Hcalls Hin) as [_ Hne]. by destruct (Hne code).
Qed.

(** C10. Every request that goes to the legacy backend (it was not
    found in the cache, and the legacy backend is the selected one) with
    one of the six shader types it supports is passed to [D3DCompile],
    with the source, the name, the macros, the entry point and the flags
    of the request and with the profile of tier 5.0 for that stage,
    "<stage-prefix>_5_0", whatever tier the options ask for; and no call
    of the request carries another profile. *)
Theorem legacy_profile_is_5_0 (P : Platform) (c : ShaderCompiler) (w : World)
    (source entryPoint : string) (type : ShaderType) (options : CompileOptions)
    (sourceName : string) (r : CompiledShader) (c' : ShaderCompiler)
    (w' : World) (t : list Call) :
  CompileFromSource P c w source entryPoint type options sourceName
  = Returns (r, c', w', t) ->
  In (EnterBackend Legacy) t
  \/ (selected_backend c options = Legacy
      /\ exists code k,
           cache_lookup P c w source options sourceName = Returns (false, code, k)) ->
  In type [Vertex; Hull; Domain; Geometry; Pixel; Compute] ->
  In (EnterBackend Legacy) t
  /\ In (Call_D3DCompile source
           (if String.eqb sourceName "" then None else Some sourceName)
           (macros options) entryPoint (GetTargetProfile type SM_5_0)
           (legacy_flags options)) t
  /\ (forall s name defines e profile flags,
        In (Call_D3DCompile s name defines e profile flags) t ->
        profile = GetTargetProfile type SM_5_0)
  /\ In (GetTargetProfile type SM_5_0)
        ["vs_5_0"; "hs_5_0"; "ds_5_0"; "gs_5_0"; "ps_5_0"; "cs_5_0"].
Proof.
  intros Hret Hlegacy Htype.
  assert (Hstate : selected_backend c options = Legacy
                   /\ exists code k,
                        cache_lookup P c w source options sourceName
                        = Returns (false, code, k)).
  { destruct Hlegacy as [Hin|Hstate]; [|done].
    split; [symmetry; by eapply CompileFromSource_entered|].
    pose proof Hret as Hcases. apply CompileFromSource_returned in Hcases
      as [(k & _ & _ & _ & _ & _ & _ & ->) | [[code Hmiss] _]].
    - by destruct Hin as [|[]].
    - by exists code, (m_cache c). }
  destruct Hstate as (Hsel & code & k & Hmiss).
  assert (Hprofile : legacy_profile type = Some (GetTargetProfile type SM_5_0)).
  { cbn in Htype. by repeat (destruct Htype as [<-|Htype]; [done|]). }
  assert (Hlist : In (GetTargetProfile type SM_5_0)
                     ["vs_5_0"; "hs_5_0"; "ds_5_0"; "gs_5_0"; "ps_5_0"; "cs_5_0"]).
  { cbn in Htype.
    repeat (destruct Htype as [<-|Htype]; [vm_compute; tauto|]). done. }
  assert (Ht : exists tail,
             t = [EnterBackend Legacy;
                  Call_D3DCompile source
                    (if String.eqb sourceName "" then None else Some sourceName)
                    (macros options) entryPoint (GetTargetProfile type SM_5_0)
                    (legacy_flags options)] ++ tail
             /\ forall x, In x tail -> exists code, x = Call_ExtractReflectionData code).
  { pose proof (CompileWithLegacyCompiler_trace P source entryPoint type options
                  sourceName) as Htrace.
    rewrite Hprofile in Htrace.
    apply CompileFromSource_returned in Hret
      as [(k' & Hhit & _)
         | [_ [(_ & _ & _ & Hb) | (r0 & t0 & Hb & _ & _ & -> & _)]]].
    - congruence.
    - unfold CompileWithBackend in Hb. rewrite Hsel in Hb.
      destruct Hb as [Hb|Hb]; inversion Hb as [Hb'].
      rewrite Hb' in Htrace. cbn in Htrace. subst t. by exists [].
    - unfold CompileWithBackend in Hb. rewrite Hsel in Hb.
      inversion Hb as [Hb'].
      rewrite Hb' in Htrace. cbn in Htrace. subst t0.
      eexists. split; [reflexivity|].
      intros x [<-|[]]. by eexists. }
  destruct Ht as (tail & -> & Htail).
  split; [by left|]. split; [right; by left|]. split; [|done].
  intros s name defines e profile flags [Heq|[Heq|Hx]].
  - done.
  - by inversion Heq.
  - by destruct (Htail _ Hx).
Qed.

Lemma push_error_nonempty (e : string) (r : CompiledShader) :
  errors (push_error e r) <> [].
Proof. cbn. by destruct (errors r). Qed.



Lemma CompileWithBackend_no_crash (P : Platform) (c : ShaderCompiler)
    (source entryPoint : string) (type : ShaderType) (options : CompileOptions)
    (sourceName : string) :
  holds_dxc c ->
  CompileWithBackend P c source entryPoint type options sourceName <> Crash.
Proof.
  unfold holds_dxc, CompileWithBackend, selected_backend, CompileWithDxc.
  intros Hdxc.
  destruct (m_useLegacyCompiler c); cbn [orb]; [done|].
  destruct (Hdxc eq_refl) as [-> ->].
  destruct (ShaderModel_le _ _); [done|].
  by destruct (DxcCompile P source _).
Qed.

(** A lookup never faults, and throws in one case only. *)
Lemma GetCachedShader_throws (P : Platform) (c : ShaderCache) (w : World)
    (filename : string) (hash : Z) (bytecode : list byte) :
  GetCachedShader P c w filename hash bytecode <> AccessViolation
  /\ (GetCachedShader P c w filename hash bytecode = Throws
      <-> memory_hit c filename hash = false
          /\ files w !! GetCacheFilePath P c filename hash = None
          /\ GetCacheFilePath P c filename hash ∈ status_errors w).
Proof.
  assert (Hdisk : GetCachedShader_disk P c w filename hash bytecode <> AccessViolation
                  /\ (GetCachedShader_disk P c w filename hash bytecode = Throws
                      <-> files w !! GetCacheFilePath P c filename hash = None
                          /\ GetCacheFilePath P c filename hash ∈ status_errors w)).
  { unfold GetCachedShader_disk.
    destruct (files w !! GetCacheFilePath P c filename hash) as [f|].
    - split; [by repeat case_match|]. split; [by repeat case_match|by intros []].
    - destruct (bool_decide_reflect
                  (GetCacheFilePath P c filename hash ∈ status_errors w));
        split; try done; split; try done. by intros []. }
  unfold GetCachedShader, memory_hit.
  destruct (m_memoryCache c !! filename) as [it|].
  - destruct (entry_hash it =? hash).
    + split; [done|]. split; [done|by intros []].
    + destruct Hdisk as [Hno Hthrows]. split; [done|].
      rewrite Hthrows. by split; [|intros []].
  - destruct Hdisk as [Hno Hthrows]. split; [done|].
    rewrite Hthrows. by split; [|intros []].
Qed.

Lemma cache_lookup_throws (P : Platform) (c : ShaderCompiler) (w : World)
    (source : string) (options : CompileOptions) (sourceName : string) :
  cache_lookup P c w source options sourceName <> AccessViolation
  /\ (cache_lookup P c w source options sourceName = Throws
      <-> lookup_throws P c w source options sourceName).
Proof.
  unfold cache_lookup, lookup_throws.
  destruct (m_cacheEnabled c); cbn [andb];
    [|by split; [|split; [|intros []]]].
  destruct (String.eqb_spec sourceName "") as [Hname|Hname]; cbn [negb].
  - split; [done|]. split; [done|]. by intros (_ & ? & _).
  - destruct (GetCachedShader_throws P (m_cache c) w sourceName
                (CalculateSourceHash P source options) []) as [Hno Hthrows].
    split; [done|]. rewrite Hthrows. cbv zeta. tauto.
Qed.

(** A request leaves with an exception exactly when its lookup throws. *)
Lemma CompileFromSource_throws (P : Platform) (c : ShaderCompiler) (w : World)
    (source entryPoint : string) (type : ShaderType) (options : CompileOptions)
    (sourceName : string) :
  CompileFromSource P c w source entryPoint type options sourceName = Throws
  <-> lookup_throws P c w source options sourceName.
Proof.
  rewrite <- (proj2 (cache_lookup_throws P c w source options sourceName)).
  unfold CompileFromSource.
  destruct (cache_lookup P c w source options sourceName) as [[[found code] k]| |];
    [|done|done].
  split; [|done]. by repeat case_match.
Qed.

(** A compiler that holds its DXC interfaces answers every request
    whose lookup does not throw. *)
Lemma CompileFromSource_no_fault (P : Platform) (c : ShaderCompiler) (w : World)
    (source entryPoint : string) (type : ShaderType) (options : CompileOptions)
    (sourceName : string) :
  holds_dxc c ->
  ~ lookup_throws P c w source options sourceName ->
  exists r c' w' t,
    CompileFromSource P c w source entryPoint type options sourceName
    = Returns (r, c', w', t).
Proof.
  intros Hdxc Hlookup. unfold CompileFromSource.
  pose proof (cache_lookup_throws P c w source options sourceName) as [Hno Hthrows].
  destruct (cache_lookup P c w source options sourceName) as [[[found code] k]| |];
    [|by destruct Hlookup; apply Hthrows|done].
  destruct found; [by eexists _, _, _, _|].
  assert (Hdxc' : holds_dxc (set_cache k c)) by done.
  pose proof (CompileWithBackend_no_crash P (set_cache k c) source entryPoint type
                options sourceName Hdxc') as Hcrash.
  destruct (CompileWithBackend P (set_cache k c) source entryPoint type options
              sourceName) as [[r0 t0]|[r0 t0]|]; [| |done].
  - destruct (success r0); [|by eexists _, _, _, _].
    cbn. destruct (m_cacheEnabled c && negb (String.eqb sourceName "")).
    + destruct (CacheShader P k w sourceName _ (bytecode r0)) as [k2 w2].
      by eexists _, _, _, _.
    + by eexists _, _, _, _.
  - by eexists _, _, _, _.
Qed.

(** It never dereferences a null interface. *)
Lemma CompileFromSource_no_violation (P : Platform) (c : ShaderCompiler) (w : World)
    (source entryPoint : string) (type : ShaderType) (options : CompileOptions)
    (sourceName : string) :
  holds_dxc c ->
  CompileFromSource P c w source entryPoint type options sourceName
  <> AccessViolation.
Proof.
  intros Hdxc Hfault.
  destruct (CompileFromSource P c w source entryPoint type options sourceName)
    as [x| |] eqn:Hret; try done.
  assert (Hlookup : ~ lookup_throws P c w source options sourceName).
  { intros Hthrows.
    apply (proj2 (CompileFromSource_throws P c w source entryPoint type options
                    sourceName)) in Hthrows.
    congruence. }
  destruct (CompileFromSource_no_fault P c w source entryPoint type options
              sourceName Hdxc Hlookup) as (r & c' & w' & t & Hreturns).
  congruence.
Qed.

Lemma CompileFromFile_no_violation (P : Platform) (c : ShaderCompiler) (w : World)
    (filename entryPoint : string) (type : ShaderType) (options : CompileOptions) :
  holds_dxc c ->
  CompileFromFile P c w filename entryPoint type options <> AccessViolation.
Proof.
  intros Hdxc. unfold CompileFromFile.
  destruct (String.eqb (LoadShaderSource w filename) ""); [done|].
  by apply CompileFromSource_no_violation.
Qed.


(** No operation of a compiler that holds its DXC interfaces faults. *)
Lemma run_operation_no_violation (P : Platform) (c : ShaderCompiler) (w : World)
    (op : Operation) :
  holds_dxc c -> run_operation P c w op <> AccessViolation.
Proof.
  intros Hdxc. destruct op; cbn; try done.
  - pose proof (CompileFromFile_no_violation P c w filename entryPoint type options
                  Hdxc) as Hno.
    by destruct (CompileFromFile P c w filename entryPoint type options)
      as [[[[r c1] w1] t]| |].
  - pose proof (CompileFromSource_no_violation P c w source entryPoint type options
                  sourceName Hdxc) as Hno.
    by destruct (CompileFromSource P c w source entryPoint type options sourceName)
      as [[[[r c1] w1] t]| |].
  - by destruct (ClearCache (m_cache c) w).
Qed.

(** C8. Once the initialisation of DXC has failed, whatever the compiler
    is asked to do afterwards goes through (a request returns, or leaves
    with the exception of its cache lookup before anything is changed),
    and then the highest supported shader model is 5.1, [IsShaderModelSupported] holds exactly
    of the tiers up to 5.1, and wave intrinsics, variable-rate shading,
    mesh shaders and raytracing are all reported unsupported. *)
Theorem legacy_fallback_is_permanent (P : Platform) (c0 : ShaderCompiler)
    (w0 : World) (ops : list ((World -> World) * Operation)) :
  dxc_initialized P = false ->
  exists c w,
    run_operations P (Initialize P c0).2 w0 ops = Returns (c, w)
    /\ GetMaxSupportedShaderModel c = SM_5_1
    /\ (forall model,
          IsShaderModelSupported c model = true
          <-> ShaderModel_value model <= ShaderModel_value SM_5_1)
    /\ SupportsWaveIntrinsics c = false
    /\ SupportsVariableRateShading c = false
    /\ SupportsMeshShaders c = false
    /\ SupportsRaytracing c = false.
Proof.
  intros Hfailed.
  assert (Hrun : forall ops c w,
            m_useLegacyCompiler c = true ->
            exists c' w', run_operations P c w ops = Returns (c', w')).
  { clear. induction ops as [|[interference op] ops IH]; intros c w Hflag; cbn.
    - by eexists _, _.
    - assert (Hdxc : holds_dxc c) by (unfold holds_dxc; congruence).
      pose proof (run_operation_no_violation P c (interference w) op Hdxc) as Hno.
      destruct (run_operation P c (interference w) op) as [[c1 w1]| |] eqn:Hop;
        [|by apply IH|done].
      apply IH. by rewrite (run_operation_flag _ _ _ _ _ _ Hop). }
  assert (Hinit : m_useLegacyCompiler (Initialize P c0).2 = true)
    by (by rewrite Initialize_flag, Hfailed).
  destruct (Hrun ops _ w0 Hinit) as (c & w & Hops).
  exists c, w. split; [done|].
  assert (Hflag : m_useLegacyCompiler c = true)
    by (by rewrite (run_operations_flag _ _ _ _ _ _ Hops)).
  unfold GetMaxSupportedShaderModel, IsShaderModelSupported, SupportsWaveIntrinsics,
    SupportsVariableRateShading, SupportsMeshShaders, SupportsRaytracing.
  rewrite Hflag. repeat split; try done.
  - unfold ShaderModel_le. by intros ?%Z.leb_le.
  - unfold ShaderModel_le. by intros ?%Z.leb_le.
Qed.

(** ** Fingerprints *)

Lemma xor64_range (a b : Z) :
  0 <= a < 2 ^ 64 -> 0 <= b < 2 ^ 64 -> 0 <= xor64 a b < 2 ^ 64.
Proof.
  intros Ha Hb. unfold xor64.
  assert (Hnonneg : 0 <= Z.lxor a b) by (apply Z.lxor_nonneg; lia).
  split; [done|].
  destruct (Z.eq_dec (Z.lxor a b) 0) as [->|Hne]; [done|].
  apply Z.log2_lt_pow2; [lia|].
  pose proof (Z.log2_lxor a b ltac:(lia) ltac:(lia)) as Hlog.
  assert (Hla : Z.log2 a < 64).
  { destruct (Z.eq_dec a 0) as [->|]; [done|]. apply Z.log2_lt_pow2; lia. }
  assert (Hlb : Z.log2 b < 64).
  { destruct (Z.eq_dec b 0) as [->|]; [done|]. apply Z.log2_lt_pow2; lia. }
  lia.
Qed.

Lemma hash_mix_range (hash term : Z) :
  0 <= hash < 2 ^ 64 -> 0 <= hash_mix hash term < 2 ^ 64.
Proof.
  intros Hh. unfold hash_mix. apply xor64_range; [done|].
  unfold add64, wrap64. apply Z.mod_pos_bound. done.
Qed.

(** Every fingerprint is a [uint64]. *)
Lemma CalculateSourceHash_range (P : Platform) (source : string)
    (options : CompileOptions) :
  0 <= CalculateSourceHash P source options < 2 ^ 64.
Proof.
  unfold CalculateSourceHash.
  assert (Hfold : forall (l : list ShaderMacro) (h : Z),
            0 <= h < 2 ^ 64 ->
            0 <= fold_left
                   (fun hash macro =>
                      hash_mix hash
                        (add64 (wrap64 (std_hash P (macro_name macro +:+ "="
                                                    +:+ macro_definition macro)))
                               0x9e3779b9)) l h < 2 ^ 64).
  { induction l as [|macro l IH]; intros h Hh; cbn [fold_left]; [done|].
    apply IH. by apply hash_mix_range. }
  apply Hfold. do 4 apply hash_mix_range.
  unfold wrap64. by apply Z.mod_pos_bound.
Qed.

(** The fingerprint is a function of the source text and of five fields
    of the options only. *)
Lemma CalculateSourceHash_fields (P : Platform) (source : string)
    (o1 o2 : CompileOptions) :
  targetModel o1 = targetModel o2 ->
  enableDebugInfo o1 = enableDebugInfo o2 ->
  enableOptimization o1 = enableOptimization o2 ->
  optimizationLevel o1 = optimizationLevel o2 ->
  macros o1 = macros o2 ->
  CalculateSourceHash P source o1 = CalculateSourceHash P source o2.
Proof. unfold CalculateSourceHash. by intros -> -> -> -> ->. Qed.

(** C2 (where the code departs from it). Two requests that differ in
    their entry point, in their shader type, in the flags
    [warningsAsErrors], [ieee754Compliance] and
    [enableUnboundedResourceArrays] and in their include paths, and agree
    on the rest, have the same fingerprint. *)
Theorem fingerprint_misses_fields (P : Platform) (source entry1 entry2 : string)
    (type1 type2 : ShaderType) (options : CompileOptions)
    (paths : list string) (werror ieee unbounded : bool) :
  request_fingerprint P
    {| request_source := source; request_entryPoint := entry1;
       request_type := type1; request_options := options |}
  = request_fingerprint P
      {| request_source := source; request_entryPoint := entry2;
         request_type := type2;
         request_options :=
           {| targetModel := targetModel options;
              macros := macros options;
              includePaths := paths;
              enableDebugInfo := enableDebugInfo options;
              enableOptimization := enableOptimization options;
              warningsAsErrors := werror;
              ieee754Compliance := ieee;
              enableUnboundedResourceArrays := unbounded;
              optimizationLevel := optimizationLevel options |} |}.
Proof. unfold request_fingerprint. cbn. by apply CalculateSourceHash_fields. Qed.

(** What follows from it: the pixel shader of a file whose vertex shader
    was compiled before is served the vertex shader's bytecode from the
    cache, and no backend is asked. *)
Example stale_hit_for_another_entry_point :
  let c := (Initialize telling_platform ShaderCompiler_new).2 in
  exists r1 c1 w1 t1 r2 c2 w2,
    CompileFromSource telling_platform c empty_world sample_source
      "VSMain" Vertex CompileOptions_default "fx.hlsl"
    = Returns (r1, c1, w1, t1)
    /\ CompileFromSource telling_platform c1 w1 sample_source
         "PSMain" Pixel CompileOptions_default "fx.hlsl"
       = Returns (r2, c2, w2, [Call_ExtractReflectionData (bytecode r1)])
    /\ bytecode r1 = list_byte_of_string "VSMain@vs_5_0"
    /\ bytecode r2 = bytecode r1.
Proof.
  cbv zeta.
  destruct (CompileFromSource telling_platform _ empty_world sample_source
              "VSMain" Vertex CompileOptions_default "fx.hlsl")
    as [[[[r1 c1] w1] t1]| |] eqn:H1; vm_compute in H1;
    [|discriminate|discriminate].
  inversion H1; subst. clear H1.
  eexists _, _, _, _, _, _, _. split; [reflexivity|].
  split; [vm_compute; reflexivity|]. split; reflexivity.
Qed.

(** ** Hot reload *)

Ltac finish_load :=
  let Heq := fresh "Heq" in
  intros Heq; inversion Heq; subst; cbn; repeat split; auto; done.

Section HotReload.
Context {Manager : Type} (compile : ManagerCompile Manager).

(** What [LoadFromFile] leaves in the shader: the request is recorded,
    the manager is asked at most once, and the file time is taken over
    exactly when the load succeeds. *)
Lemma LoadFromFile_result (s : Shader) (m : Manager) (w : World)
    (filename entryPoint : string) (type : ShaderType) (options : CompileOptions)
    (ok : bool) (s' : Shader) (m' : Manager) (t : list Call) :
  LoadFromFile compile s m w filename entryPoint type options = (ok, s', m', t) ->
  m_sourceFile s' = filename
  /\ shader_hotReloadEnabled s' = shader_hotReloadEnabled s
  /\ (t = [] \/ t = [Call_ManagerCompileShader filename])
  /\ (ok = true -> m_lastFileTime s' = GetFileTime w filename
                   /\ Shader_IsValid s' = true
                   /\ t = [Call_ManagerCompileShader filename])
  /\ (ok = false -> m_lastFileTime s' = m_lastFileTime s).
Proof.
  unfold LoadFromFile.
  destruct (files w !! filename) as [f|]; [|by finish_load].
  destruct (is_open w filename); cbn [negb]; [|by finish_load].
  destruct (compile m _ entryPoint type options filename) as [[|p] m1];
    [by finish_load|].
  destruct (Shader_IsValid _) eqn:Hvalid; by finish_load.
Qed.

(** After a check that found nothing newer, or in a shader whose file
    time is the file's, a check does nothing. *)
Lemma CheckForReload_up_to_date (s : Shader) (m : Manager) (w : World) :
  GetFileTime w (m_sourceFile s) <= m_lastFileTime s ->
  CheckForReload compile s m w = (s, m, []).
Proof.
  intros Hle. unfold CheckForReload.
  destruct (negb (shader_hotReloadEnabled s) || String.eqb (m_sourceFile s) "");
    [done|].
  destruct (Z.ltb_spec (m_lastFileTime s) (GetFileTime w (m_sourceFile s)));
    [lia|done].
Qed.

(** C9 (as the code has it). A check asks for a recompilation at most
    once, and only when hot reload is on, the shader has a source file
    and the file's modification time is strictly newer than the time
    recorded. The recorded time becomes the file's time when the reload
    succeeds, and then a further check without a change of the file
    does nothing; when the reload fails the recorded time stays as it
    was. *)
Theorem CheckForReload_timestamp (s : Shader) (m : Manager) (w : World)
    (s' : Shader) (m' : Manager) (t : list Call) :
  CheckForReload compile s m w = (s', m', t) ->
  let current := GetFileTime w (m_sourceFile s) in
  let reloaded :=
    (LoadFromFile compile s m w (m_sourceFile s) (m_entryPoint s) (m_type s)
       (m_compileOptions s)).1.1.1 in
  (recompilations t <= 1)%nat
  /\ (t <> [] ->
      shader_hotReloadEnabled s = true /\ m_sourceFile s <> ""
      /\ m_lastFileTime s < current)
  /\ (t <> [] -> reloaded = true ->
      m_lastFileTime s' = current
      /\ forall m2, CheckForReload compile s' m2 w = (s', m2, []))
  /\ (reloaded = false -> m_lastFileTime s' = m_lastFileTime s).
Proof.
  intros Hcheck current reloaded. unfold CheckForReload in Hcheck.
  destruct (shader_hotReloadEnabled s) eqn:Hhot; cbn [negb orb] in Hcheck;
    [|inversion Hcheck; subst; cbn; repeat split; (lia || done)].
  destruct (String.eqb_spec (m_sourceFile s) "") as [Hfile|Hfile];
    [inversion Hcheck; subst; cbn; repeat split; (lia || done)|].
  destruct (Z.ltb_spec (m_lastFileTime s) (GetFileTime w (m_sourceFile s)))
    as [Hnewer|Hold];
    [|inversion Hcheck; subst; cbn; repeat split; (lia || done)].
  subst reloaded.
  destruct (LoadFromFile compile s m w (m_sourceFile s) (m_entryPoint s)
              (m_type s) (m_compileOptions s)) as [[[ok s1] m1] t1] eqn:Hload.
  inversion Hcheck; subst. cbn [fst].
  apply LoadFromFile_result in Hload as (Hname & Hhot' & Ht & Hok & Hfail).
  split; [by destruct Ht as [->| ->]; cbn; lia|].
  split; [done|]. split; [|done].
  intros _ Htrue. destruct (Hok Htrue) as (Htime & _ & _). split; [done|].
  intros m2. apply CheckForReload_up_to_date. rewrite Hname, Htime. lia.
Qed.
End HotReload.

(* ================================================================= *)
(** * The properties at work on the concrete platform *)

(** The sample record is found, read whole and put into the memory tier. *)
Lemma GetCachedShader_disk_record_witness :
  exists c',
    GetCachedShader (sample_platform false d3d_ok dxc_ok) ShaderCache_new
      sample_disk "Test.hlsl" 0xabc []
    = Returns (true, sample_bytecode, c')
    /\ (entry_bytecode <$> m_memoryCache c' !! "Test.hlsl") = Some sample_bytecode.
Proof.
  pose proof (GetCachedShader_disk_record (sample_platform false d3d_ok dxc_ok)
                ShaderCache_new sample_disk "Test.hlsl" 0xabc [] sample_record
                ltac:(reflexivity) ltac:(vm_compute; reflexivity)
                ltac:(reflexivity) ltac:(vm_compute; lia)) as H.
  cbv zeta in H.
  destruct H as (found & out & c' & Hlookup & Hiff & _ & Hhit).
  assert (Hfound : found = true) by (apply Hiff; vm_compute; done).
  destruct (Hhit Hfound) as (Hout & _ & Hmem).
  assert (Hbytes : out = sample_bytecode) by (rewrite Hout; vm_compute; reflexivity).
  exists c'. rewrite Hlookup, Hfound, Hbytes. split; [reflexivity|].
  rewrite Hmem, lookup_insert_eq. cbn. by rewrite Hbytes.
Defined.

(** One flipped byte of the magic, a wrong version or another fingerprint
    make the same lookup a miss. *)
Example flipped_magic_is_a_miss :
  GetCachedShader (sample_platform false d3d_ok dxc_ok) ShaderCache_new
    corrupt_disk "Test.hlsl" 0xabc []
  = Returns (false, [], ShaderCache_new).
Proof. vm_compute. reflexivity. Qed.

Example other_fingerprint_is_a_miss :
  GetCachedShader (sample_platform false d3d_ok dxc_ok) ShaderCache_new
    (set_files {[ "cache/shaders/Test_abd.cache" := sample_record ]} sample_disk)
    "Test.hlsl" 0xabd []
  = Returns (false, [], ShaderCache_new).
Proof. vm_compute. reflexivity. Qed.

Lemma CacheShader_roundtrip_witness :
  let '(c1, w1) :=
    CacheShader (sample_platform false d3d_ok dxc_ok) ShaderCache_new empty_world
      "Test.hlsl" 0xabc sample_bytecode in
  exists c2,
    GetCachedShader (sample_platform false d3d_ok dxc_ok) (restart c1) w1
      "Test.hlsl" 0xabc []
    = Returns (true, sample_bytecode, c2)
    /\ (entry_bytecode <$> m_memoryCache c2 !! "Test.hlsl") = Some sample_bytecode.
Proof.
  apply (CacheShader_roundtrip (sample_platform false d3d_ok dxc_ok)
           ShaderCache_new empty_world "Test.hlsl" 0xabc sample_bytecode []).
  - lia.
  - vm_compute. reflexivity.
  - reflexivity.
  - reflexivity.
Defined.


(** A source the legacy toolchain rejects is compiled anew each time. *)
Lemma failed_compile_is_not_cached_witness :
  let P := sample_platform false d3d_fails dxc_ok in
  let c := (Initialize P ShaderCompiler_new).2 in
  exists r t,
    CompileFromSource P c empty_world sample_source "main" Pixel
      CompileOptions_default "Test.hlsl"
    = Returns (r, c, empty_world, t)
    /\ success r = false
    /\ In (EnterBackend Legacy) t.
Proof.
  cbv zeta.
  destruct (CompileFromSource (sample_platform false d3d_fails dxc_ok) _ empty_world
              sample_source "main" Pixel CompileOptions_default "Test.hlsl")
    as [[[[r c'] w'] t]| |] eqn:Hret;
    [|vm_compute in Hret; discriminate|vm_compute in Hret; discriminate].
  assert (Hfail : success r = false).
  { pose proof Hret as Hval. vm_compute in Hval. by inversion Hval. }
  destruct (failed_compile_is_not_cached _ _ _ _ _ _ _ _ _ _ _ _ Hret Hfail)
    as (-> & -> & _ & _ & _ & Hin).
  by exists r, t.
Defined.



(** When the status of the cache path cannot be read, the request
    leaves with the exception of the lookup; without a source name the
    same request does not look the cache up, and is answered. *)
Example status_error_leaves_the_request :
  let P := sample_platform false d3d_ok dxc_ok in
  let c := (Initialize P ShaderCompiler_new).2 in
  let cachePath :=
    GetCacheFilePath P (m_cache c) "Test.hlsl"
      (CalculateSourceHash P sample_source CompileOptions_default) in
  let w := {| files := ∅; denied := ∅; status_errors := {[ cachePath ]};
              now := 1000 |} in
  CompileFromSource P c w sample_source "main" Pixel CompileOptions_default
    "Test.hlsl" = Throws
  /\ exists r t,
       CompileFromSource P c w sample_source "main" Pixel CompileOptions_default ""
       = Returns (r, c, w, t)
       /\ success r = true.
Proof.
  cbv zeta. split.
  - apply CompileFromSource_throws. unfold lookup_throws. cbv zeta.
    split; [reflexivity|]. split; [discriminate|]. split; [reflexivity|].
    split; [reflexivity|]. cbn [status_errors]. by apply elem_of_singleton_2.
  - eexists _, _. split; [reflexivity|]. reflexivity.
Qed.

(** Before [Initialize] the compiler holds no DXC interface and does not
    use the legacy backend: a request for tier 6.4 faults. *)
Example compile_before_Initialize_faults :
  CompileFromSource (sample_platform true d3d_ok dxc_ok) ShaderCompiler_new
    empty_world sample_source "main" Pixel CompileOptions_default ""
  = AccessViolation.
Proof. reflexivity. Qed.

(** The legacy backend reports "Unknown compilation error" when the
    toolchain fails without a message; the DXC branch does not: a failed
    status without diagnostic text leaves the error list empty. *)
Example dxc_failure_without_diagnostic :
  let P := sample_platform true d3d_ok (DxcCompiled false None None) in
  exists r c' w' t,
    CompileFromSource P (Initialize P ShaderCompiler_new).2 empty_world
      sample_source "main" Pixel CompileOptions_default ""
    = Returns (r, c', w', t)
    /\ success r = false /\ errors r = [].
Proof. cbv zeta. eexists _, _, _, _. split; [reflexivity|]. done. Qed.

(** A shader that declares a constant buffer, a texture and a sampler
    compiles, and its result lists no input element and no binding. *)
Lemma reflection_is_not_populated :
  let P := sample_platform false d3d_ok dxc_ok in
  exists r c' w' t,
    CompileFromSource P (Initialize P ShaderCompiler_new).2 empty_world
      textured_source "main" Pixel CompileOptions_default "Textured.hlsl"
    = Returns (r, c', w', t)
    /\ success r = true
    /\ inputLayout r = [] /\ constantBufferBindings r = ∅
    /\ textureBindings r = ∅ /\ samplerBindings r = ∅ /\ uavBindings r = ∅.
Proof.
  cbv zeta. eexists _, _, _, _. split; [vm_compute; reflexivity|]. done.
Qed.

Lemma reflection_runs_on_success_witness :
  let P := sample_platform false d3d_ok dxc_ok in
  exists r c' w' t,
    CompileFromSource P (Initialize P ShaderCompiler_new).2 empty_world
      sample_source "main" Pixel CompileOptions_default "Test.hlsl"
    = Returns (r, c', w', t)
    /\ In (Call_ExtractReflectionData (bytecode r)) t /\ reflection_empty r.
Proof.
  cbv zeta.
  destruct (CompileFromSource (sample_platform false d3d_ok dxc_ok) _ empty_world
              sample_source "main" Pixel CompileOptions_default "Test.hlsl")
    as [[[[r c'] w'] t]| |] eqn:Hret;
    [|vm_compute in Hret; discriminate|vm_compute in Hret; discriminate].
  assert (Hok : success r = true).
  { pose proof Hret as Hval. vm_compute in Hval. by inversion Hval. }
  destruct (reflection_runs_on_success _ _ _ _ _ _ _ _ _ _ _ _ Hret) as [Hrun _].
  exists r, c', w', t. split; [done|]. by apply Hrun.
Defined.

Lemma legacy_fallback_is_permanent_witness :
  let P := sample_platform false d3d_ok dxc_ok in
  exists c w,
    run_operations P (Initialize P ShaderCompiler_new).2 empty_world
      [(id, Op_CompileFromSource sample_source "main" Pixel CompileOptions_default
              "Test.hlsl");
       (id, Op_Shutdown);
       (id, Op_SetCacheEnabled false);
       (id, Op_CompileFromFile "Test.hlsl" "main" Vertex CompileOptions_default)]
    = Returns (c, w)
    /\ GetMaxSupportedShaderModel c = SM_5_1
    /\ (forall model,
          IsShaderModelSupported c model = true
          <-> ShaderModel_value model <= ShaderModel_value SM_5_1)
    /\ SupportsWaveIntrinsics c = false
    /\ SupportsVariableRateShading c = false
    /\ SupportsMeshShaders c = false
    /\ SupportsRaytracing c = false.
Proof.
  cbv zeta. apply legacy_fallback_is_permanent. reflexivity.
Defined.

(** A request for tier 5.1 is passed to [D3DCompile] with the profile
    of tier 5.0. *)
Lemma legacy_profile_is_5_0_witness :
  let P := sample_platform true d3d_ok dxc_ok in
  let options := {| targetModel := SM_5_1; macros := []; includePaths := [];
                    enableDebugInfo := false; enableOptimization := true;
                    warningsAsErrors := false; ieee754Compliance := false;
                    enableUnboundedResourceArrays := false;
                    optimizationLevel := 3 |} in
  exists r c' w' t,
    CompileFromSource P (Initialize P ShaderCompiler_new).2 empty_world
      sample_source "main" Pixel options "Test.hlsl"
    = Returns (r, c', w', t)
    /\ In (Call_D3DCompile sample_source (Some "Test.hlsl") [] "main" "ps_5_0"
             D3DCOMPILE_OPTIMIZATION_LEVEL3) t
    /\ (forall s name defines e profile flags,
          In (Call_D3DCompile s name defines e profile flags) t ->
          profile = "ps_5_0")
    /\ GetTargetProfile Pixel (targetModel options) = "ps_5_1".
Proof.
  cbv zeta.
  destruct (CompileFromSource (sample_platform true d3d_ok dxc_ok) _ empty_world
              sample_source "main" Pixel _ "Test.hlsl")
    as [[[[r c'] w'] t]| |] eqn:Hret;
    [|vm_compute in Hret; discriminate|vm_compute in Hret; discriminate].
  destruct (legacy_profile_is_5_0 _ _ _ _ _ _ _ _ _ _ _ _ Hret
              (or_intror (conj eq_refl (ex_intro _ _ (ex_intro _ _ eq_refl))))
              ltac:(cbn; tauto)) as (_ & Hcall & Hall & _).
  exists r, c', w', t. split; [done|]. split; [exact Hcall|].
  split; [|reflexivity].
  intros s name defines e profile flags Hin.
  by rewrite (Hall _ _ _ _ _ _ Hin).
Defined.

(** A reload that succeeds is not repeated. *)
Lemma CheckForReload_timestamp_witness :
  let '(s', m', t) :=
    CheckForReload working_manager watched_shader tt watched_world in
  recompilations t = 1%nat
  /\ m_lastFileTime s' = 5
  /\ CheckForReload working_manager s' tt watched_world = (s', tt, []).
Proof.
  destruct (CheckForReload working_manager watched_shader tt watched_world)
    as [[s' m'] t] eqn:Hcheck.
  pose proof (CheckForReload_timestamp working_manager _ _ _ _ _ _ Hcheck)
    as (_ & _ & Hok & _).
  assert (Ht : t = [Call_ManagerCompileShader "fx.hlsl"]).
  { pose proof Hcheck as Hval. vm_compute in Hval. by inversion Hval. }
  destruct Hok as [Htime Hagain]; [by rewrite Ht|reflexivity|].
  split; [by rewrite Ht|]. split; [by rewrite Htime|]. apply Hagain.
Defined.

(** A reload that fails is repeated at the next check, the file being
    as it was: the time recorded is still the old one. *)
Lemma failed_reload_is_retried :
  let '(s1, m1, t1) :=
    CheckForReload failing_manager watched_shader tt watched_world in
  let '(s2, m2, t2) := CheckForReload failing_manager s1 m1 watched_world in
  recompilations t1 = 1%nat
  /\ GetFileTime watched_world (m_sourceFile s1) = 5
  /\ m_lastFileTime s1 = 0
  /\ recompilations t2 = 1%nat.
Proof. vm_compute. done. Qed.

(* ================================================================= *)
(** * Further properties of the code *)

(** ** Names of shader models and shader types *)

(** X1. Printing a shader model and parsing the text gives the model
    back; every text that is not the print of a model parses as 5.0. *)
Theorem ParseShaderModel_ShaderModelToString :
  (forall model, ParseShaderModel (ShaderModelToString model) = model)
  /\ (forall str, (forall model, str <> ShaderModelToString model) ->
                  ParseShaderModel str = SM_5_0).
Proof.
  split.
  - by intros [].
  - intros str Hnone. unfold ParseShaderModel.
    destruct (String.eqb_spec str "5.0") as [->|_]; [done|].
    destruct (String.eqb_spec str "5.1") as [->|_]; [by destruct (Hnone SM_5_1)|].
    destruct (String.eqb_spec str "6.0") as [->|_]; [by destruct (Hnone SM_6_0)|].
    destruct (String.eqb_spec str "6.1") as [->|_]; [by destruct (Hnone SM_6_1)|].
    destruct (String.eqb_spec str "6.2") as [->|_]; [by destruct (Hnone SM_6_2)|].
    destruct (String.eqb_spec str "6.3") as [->|_]; [by destruct (Hnone SM_6_3)|].
    destruct (String.eqb_spec str "6.4") as [->|_]; [by destruct (Hnone SM_6_4)|].
    done.
Qed.

(** The stage of a classic profile is read back from its first two
    characters. *)
Lemma ParseShaderType_of_profile (type : ShaderType) (model : ShaderModel) :
  In type legacy_types ->
  ParseShaderType (String.substring 0 2 (GetTargetProfile type model)) = type.
Proof.
  intros Htype. unfold legacy_types in Htype. cbn in Htype.
  repeat (destruct Htype as [<-|Htype]; [by destruct model|]). done.
Qed.

(** X2. [ParseShaderType] only ever yields one of the six classic
    stages. It reads the stage back from the first two characters of a
    target profile, but not from the names [ShaderTypeToString] prints:
    each of those parses as [Vertex]. *)
Theorem ParseShaderType_results :
  (forall str, In (ParseShaderType str) legacy_types)
  /\ (forall type model,
        In type legacy_types ->
        ParseShaderType (String.substring 0 2 (GetTargetProfile type model)) = type)
  /\ (forall type, ParseShaderType (ShaderTypeToString type) = Vertex).
Proof.
  split; [|split].
  - intros str. unfold ParseShaderType, legacy_types.
    repeat (destruct (_ || _); [cbn; tauto|]). cbn. tauto.
  - apply ParseShaderType_of_profile.
  - by intros [].
Qed.

Lemma ParseShaderType_results_witness :
  ParseShaderType (String.substring 0 2 (GetTargetProfile Compute SM_6_2)) = Compute.
Proof.
  apply (proj1 (proj2 ParseShaderType_results) Compute SM_6_2).
  cbn. tauto.
Defined.

(** X3. Among the six classic stages, two requests get the same target
    profile only if they have the same stage and the same shader model.
    Every other stage (amplification, mesh, the ray-tracing stages)
    gets the profile of the vertex stage. *)
Theorem GetTargetProfile_distinct :
  (forall type1 type2 model1 model2,
     In type1 legacy_types -> In type2 legacy_types ->
     GetTargetProfile type1 model1 = GetTargetProfile type2 model2 ->
     type1 = type2 /\ model1 = model2)
  /\ (forall type model,
        ~ In type legacy_types ->
        GetTargetProfile type model = GetTargetProfile Vertex model).
Proof.
  split.
  - intros type1 type2 model1 model2 H1 H2 Heq.
    assert (Htype : type1 = type2).
    { rewrite <- (ParseShaderType_of_profile type1 model1 H1).
      rewrite <- (ParseShaderType_of_profile type2 model2 H2).
      by rewrite Heq. }
    subst type2. split; [done|]. clear H2.
    unfold legacy_types in H1. cbn in H1.
    repeat (destruct H1 as [<-|H1];
            [by destruct model1, model2; vm_compute in Heq|]).
    done.
  - intros type model Hnot. unfold legacy_types in Hnot. cbn in Hnot.
    destruct type; try done; exfalso; tauto.
Qed.

Lemma GetTargetProfile_distinct_witness :
  Pixel = Pixel /\ SM_6_0 = SM_6_0.
Proof.
  apply (proj1 GetTargetProfile_distinct Pixel Pixel SM_6_0 SM_6_0).
  - cbn. tauto.
  - cbn. tauto.
  - reflexivity.
Defined.

(** ** Compiler switches *)

(** X4. The argument list for DXC holds exactly one optimisation switch:
    "-Od" when optimisation is off, "-O0" to "-O3" for the levels 0 to 3
    when it is on. For any other level with optimisation on it holds
    none at all. *)
Theorem BuildCompilerArguments_optimization (options : CompileOptions) :
  List.filter is_optimization_switch (BuildCompilerArguments options)
  = if enableOptimization options then
      if (0 <=? optimizationLevel options) && (optimizationLevel options <=? 3)
      then ["-O" +:+ to_string (optimizationLevel options)]
      else []
    else ["-Od"].
Proof.
  unfold BuildCompilerArguments.
  destruct (enableDebugInfo options), (enableOptimization options),
    (warningsAsErrors options), (ieee754Compliance options),
    (enableUnboundedResourceArrays options);
    try reflexivity;
    destruct (optimizationLevel options) as [|[[|[]|]|[|[]|]|]|]; reflexivity.
Qed.

(** X5. The flag word for the legacy toolchain, bit by bit: debug
    information sets DEBUG and SKIP_OPTIMIZATION and keeps
    OPTIMIZATION_LEVEL3 off; otherwise optimisation sets
    OPTIMIZATION_LEVEL3 whatever level the options name; the two
    strictness options set their own bit; no other bit is ever set. *)
Theorem legacy_flags_bits (options : CompileOptions) (n : Z) :
  Z.testbit (legacy_flags options) n
  = if n =? 0 then enableDebugInfo options
    else if n =? 2 then enableDebugInfo options
    else if n =? 13 then ieee754Compliance options
    else if n =? 15 then enableOptimization options && negb (enableDebugInfo options)
    else if n =? 18 then warningsAsErrors options
    else false.
Proof.
  unfold legacy_flags.
  set (bit := fun k : Z =>
         if k =? 0 then enableDebugInfo options
         else if k =? 2 then enableDebugInfo options
         else if k =? 13 then ieee754Compliance options
         else if k =? 15 then enableOptimization options && negb (enableDebugInfo options)
         else if k =? 18 then warningsAsErrors options
         else false).
  fold (bit n).
  assert (Hbits : forall f : Z, 0 <= f < 2 ^ 19 ->
            (forall k : nat, (k < 19)%nat -> Z.testbit f (Z.of_nat k) = bit (Z.of_nat k)) ->
            Z.testbit f n = bit n).
  { intros f Hf Hk.
    destruct (Z_lt_le_dec n 0) as [Hneg|Hpos].
    { rewrite Z.testbit_neg_r by done. subst bit. cbv beta.
      repeat match goal with
             | |- context [?a =? ?b] => destruct (Z.eqb_spec a b); [lia|]
             end.
      reflexivity. }
    destruct (Z_lt_le_dec n 19) as [Hsmall|Hbig].
    - rewrite <- (Z2Nat.id n) by lia. apply Hk. lia.
    - rewrite (Z.bits_above_log2 f n).
      + subst bit. cbv beta.
        repeat match goal with
               | |- context [?a =? ?b] => destruct (Z.eqb_spec a b); [lia|]
               end.
        reflexivity.
      + lia.
      + destruct (Z.eq_dec f 0) as [->|Hne]; [cbn; lia|].
        assert (Z.log2 f < 19) by (apply Z.log2_lt_pow2; lia). lia. }
  subst bit. cbv beta in Hbits.
  destruct (enableDebugInfo options), (enableOptimization options),
    (warningsAsErrors options), (ieee754Compliance options);
    (apply Hbits; [vm_compute; split; [discriminate|reflexivity]|]);
    intros k Hk;
    do 19 (destruct k as [|k]; [reflexivity|]); lia.
Qed.

(** ** The cache store, further *)

Lemma string_app_cons (x : ascii) (a b : string) :
  String x a +:+ b = String x (a +:+ b).
Proof. reflexivity. Qed.

Lemma string_app_nil (b : string) : "" +:+ b = b.
Proof. reflexivity. Qed.

Lemma string_length_app (a b : string) :
  String.length (a +:+ b) = (String.length a + String.length b)%nat.
Proof.
  induction a as [|x a IH]; [done|].
  rewrite string_app_cons. cbn. by rewrite IH.
Qed.

Lemma string_app_cancel_r (a b t : string) : a +:+ t = b +:+ t -> a = b.
Proof.
  revert b. induction a as [|x a IH]; intros [|y b] Heq.
  - done.
  - apply (f_equal String.length) in Heq.
    rewrite !string_length_app in Heq. cbn in Heq. lia.
  - apply (f_equal String.length) in Heq.
    rewrite !string_length_app in Heq. cbn in Heq. lia.
  - rewrite !string_app_cons in Heq. inversion Heq as [[Hx Hrest]].
    f_equal. by apply IH.
Qed.

Lemma string_prefix_app (a b : string) : String.prefix a (a +:+ b) = true.
Proof.
  induction a as [|x a IH]; [by destruct b|].
  rewrite string_app_cons. cbn.
  destruct (Ascii.ascii_dec x x); done.
Qed.

(** Two fingerprints are printed alike only if they are the same. *)
Lemma hex_inj (a b : Z) : 0 <= a -> 0 <= b -> hex a = hex b -> a = b.
Proof.
  unfold hex. intros Ha Hb Heq.
  assert (Hnonnil : forall n, N.to_hex_uint n <> Hexadecimal.Nil).
  { intros [|p]; [done|]. apply HexadecimalPos.Unsigned.to_uint_nonnil. }
  apply (f_equal HexadecimalString.NilZero.uint_of_string) in Heq.
  rewrite !HexadecimalString.NilZero.usu in Heq by apply Hnonnil.
  inversion Heq as [Huint].
  apply HexadecimalN.Unsigned.to_uint_inj in Huint. lia.
Qed.

(** The records of two fingerprints of one file lie in two files. *)
Lemma GetCacheFilePath_inj (P : Platform) (c : ShaderCache) (filename : string)
    (hash1 hash2 : Z) :
  0 <= hash1 -> 0 <= hash2 ->
  GetCacheFilePath P c filename hash1 = GetCacheFilePath P c filename hash2 ->
  hash1 = hash2.
Proof.
  unfold GetCacheFilePath. intros H1 H2 Heq.
  do 3 apply String.app_inj in Heq.
  apply string_app_cancel_r in Heq. by apply hex_inj.
Qed.

(** What a store that goes through leaves behind. *)
Lemma CacheShader_stored (P : Platform) (c : ShaderCache) (w : World)
    (filename : string) (hash : Z) (bytecode : list byte) :
  is_open w (m_cacheDirectory c) = true ->
  is_open w (GetCacheFilePath P c filename hash) = true ->
  CacheShader P c w filename hash bytecode
  = (set_memoryCache
       (<[filename := {| entry_bytecode := bytecode; entry_hash := hash;
                         entry_timestamp := now w |}]> (m_memoryCache c)) c,
     set_files
       (<[GetCacheFilePath P c filename hash :=
            {| file_data :=
                 CacheHeader_bytes (stack_junk P)
                   {| header_magic := CACHE_MAGIC;
                      header_version := CACHE_VERSION;
                      header_hash := hash;
                      header_size := wrap32 (Z.of_nat (length bytecode)) |}
                 ++ bytecode;
               file_mtime := now w |}]> (files w)) w).
Proof. intros Hdir Hpath. unfold CacheShader. by rewrite Hdir, Hpath. Qed.

(** A lookup that misses in memory and finds a record as [CacheShader]
    writes it reads the stored bytes. *)
Lemma GetCachedShader_written (P : Platform) (k : ShaderCache) (w : World)
    (filename : string) (hash : Z) (bytecode old : list byte) (time : Z) :
  0 <= hash < 2 ^ 64 ->
  Z.of_nat (length bytecode) < 2 ^ 32 ->
  memory_hit k filename hash = false ->
  files w !! GetCacheFilePath P k filename hash
  = Some {| file_data :=
              CacheHeader_bytes (stack_junk P)
                {| header_magic := CACHE_MAGIC;
                   header_version := CACHE_VERSION;
                   header_hash := hash;
                   header_size := wrap32 (Z.of_nat (length bytecode)) |}
              ++ bytecode;
            file_mtime := time |} ->
  is_open w (GetCacheFilePath P k filename hash) = true ->
  GetCachedShader P k w filename hash old
  = Returns
      (true, bytecode,
       set_memoryCache
         (<[filename := {| entry_bytecode := bytecode; entry_hash := hash;
                           entry_timestamp := time |}]> (m_memoryCache k)) k).
Proof.
  intros Hhash Hsize Hmiss Hfile Hopen.
  set (h := {| header_magic := CACHE_MAGIC; header_version := CACHE_VERSION;
               header_hash := hash;
               header_size := wrap32 (Z.of_nat (length bytecode)) |}) in *.
  assert (Hhdr : length (CacheHeader_bytes (stack_junk P) h) = sizeof_CacheHeader)
    by (by apply length_CacheHeader_bytes).
  rewrite (GetCachedShader_disk_lookup P k w filename hash old _ Hmiss Hfile Hopen)
    by (cbn [file_data]; rewrite length_app; lia).
  cbn [file_data file_mtime].
  rewrite CacheHeader_roundtrip by done.
  cbn [header_magic header_version header_hash header_size h].
  unfold wrap32, wrap64, CACHE_VERSION.
  rewrite (Z.mod_small hash) by lia.
  rewrite !(Z.mod_small (Z.of_nat (length bytecode))) by lia.
  rewrite (bool_decide_eq_true_2 (CACHE_MAGIC = CACHE_MAGIC) eq_refl).
  rewrite (Z.eqb_refl hash). change (1 mod 2 ^ 32 =? 1) with true. cbn [andb].
  rewrite drop_app_length' by done. rewrite Nat2Z.id.
  rewrite read_into_enough by (rewrite length_vector_resize; lia).
  rewrite length_vector_resize. by rewrite take_ge by lia.
Qed.

(** X6. Two variants of one file (two fingerprints under one file name)
    are both kept on disk, in two files, but the memory tier keeps one
    entry per file name: after both are stored it holds the second, a
    request for the first is answered from disk, and that answer puts the
    first back into memory in place of the second. *)
Theorem two_fingerprints_of_one_file (P : Platform) (c : ShaderCache) (w : World)
    (filename : string) (hash1 hash2 : Z) (bytecode1 bytecode2 : list byte) :
  0 <= hash1 < 2 ^ 64 -> 0 <= hash2 < 2 ^ 64 -> hash1 <> hash2 ->
  Z.of_nat (length bytecode1) < 2 ^ 32 ->
  is_open w (m_cacheDirectory c) = true ->
  is_open w (GetCacheFilePath P c filename hash1) = true ->
  is_open w (GetCacheFilePath P c filename hash2) = true ->
  let '(c1, w1) := CacheShader P c w filename hash1 bytecode1 in
  let '(c2, w2) := CacheShader P c1 w1 filename hash2 bytecode2 in
  memory_hit c2 filename hash2 = true
  /\ memory_hit c2 filename hash1 = false
  /\ GetCacheFilePath P c filename hash1 <> GetCacheFilePath P c filename hash2
  /\ is_Some (files w2 !! GetCacheFilePath P c filename hash1)
  /\ is_Some (files w2 !! GetCacheFilePath P c filename hash2)
  /\ exists c3,
       GetCachedShader P c2 w2 filename hash1 [] = Returns (true, bytecode1, c3)
       /\ memory_hit c3 filename hash1 = true
       /\ memory_hit c3 filename hash2 = false.
Proof.
  intros Hh1 Hh2 Hne Hsize Hdir Hp1 Hp2.
  rewrite CacheShader_stored by done.
  rewrite CacheShader_stored by done.
  set (c2 := set_memoryCache _ (set_memoryCache _ c)).
  set (w2 := set_files _ (set_files _ w)).
  assert (Hpaths : GetCacheFilePath P c filename hash2
                   <> GetCacheFilePath P c filename hash1).
  { intros Heq. apply GetCacheFilePath_inj in Heq; lia. }
  assert (Hm2 : memory_hit c2 filename hash2 = true).
  { unfold memory_hit, c2. cbn. rewrite lookup_insert_eq. cbn. apply Z.eqb_refl. }
  assert (Hm1 : memory_hit c2 filename hash1 = false).
  { unfold memory_hit, c2. cbn. rewrite lookup_insert_eq. cbn. by apply Z.eqb_neq. }
  split; [done|]. split; [done|]. split; [done|].
  assert (Hfile1 : files w2 !! GetCacheFilePath P c filename hash1
                   = Some {| file_data :=
                               CacheHeader_bytes (stack_junk P)
                                 {| header_magic := CACHE_MAGIC;
                                    header_version := CACHE_VERSION;
                                    header_hash := hash1;
                                    header_size :=
                                      wrap32 (Z.of_nat (length bytecode1)) |}
                               ++ bytecode1;
                             file_mtime := now w |}).
  { unfold w2. cbn [files set_files].
    change (GetCacheFilePath P (set_memoryCache _ c) filename hash2)
      with (GetCacheFilePath P c filename hash2).
    rewrite lookup_insert_ne by done. apply lookup_insert_eq. }
  split; [by rewrite Hfile1|]. split.
  { unfold w2. cbn [files set_files].
    change (GetCacheFilePath P (set_memoryCache _ c) filename hash2)
      with (GetCacheFilePath P c filename hash2).
    by rewrite lookup_insert_eq. }
  eexists. split.
  - apply (GetCachedShader_written P c2 w2 filename hash1 bytecode1 [] (now w));
      [done|done|done| |done].
    change (GetCacheFilePath P c2 filename hash1)
      with (GetCacheFilePath P c filename hash1).
    unfold w2. cbn [files set_files].
    change (GetCacheFilePath P (set_memoryCache _ c) filename hash2)
      with (GetCacheFilePath P c filename hash2).
    rewrite lookup_insert_ne by done. apply lookup_insert_eq.
  - unfold memory_hit. cbn. rewrite !lookup_insert_eq. cbn.
    split; [apply Z.eqb_refl|]. apply Z.eqb_neq. lia.
Qed.

Lemma two_fingerprints_of_one_file_witness :
  let '(c1, w1) :=
    CacheShader (sample_platform false d3d_ok dxc_ok) ShaderCache_new empty_world
      "Test.hlsl" 0xabc sample_bytecode in
  let '(c2, w2) :=
    CacheShader (sample_platform false d3d_ok dxc_ok) c1 w1 "Test.hlsl" 0xabd [] in
  memory_hit c2 "Test.hlsl" 0xabd = true
  /\ memory_hit c2 "Test.hlsl" 0xabc = false
  /\ "cache/shaders/Test_abc.cache" <> "cache/shaders/Test_abd.cache"
  /\ is_Some (files w2 !! "cache/shaders/Test_abc.cache")
  /\ is_Some (files w2 !! "cache/shaders/Test_abd.cache")
  /\ exists c3,
       GetCachedShader (sample_platform false d3d_ok dxc_ok) c2 w2 "Test.hlsl"
         0xabc []
       = Returns (true, sample_bytecode, c3)
       /\ memory_hit c3 "Test.hlsl" 0xabc = true
       /\ memory_hit c3 "Test.hlsl" 0xabd = false.
Proof.
  apply (two_fingerprints_of_one_file (sample_platform false d3d_ok dxc_ok)
           ShaderCache_new empty_world "Test.hlsl" 0xabc 0xabd sample_bytecode []);
    (lia || reflexivity).
Defined.

(** X7. A record whose header matches is served with exactly as many
    bytes as its size field names, whatever the file holds after the
    header: a payload that is too short comes back filled up with zero
    bytes, one that is too long is cut. *)
Theorem record_payload_is_resized (P : Platform) (c : ShaderCache) (w : World)
    (filename : string) (hash : Z) (f : File) :
  memory_hit c filename hash = false ->
  files w !! GetCacheFilePath P c filename hash = Some f ->
  is_open w (GetCacheFilePath P c filename hash) = true ->
  (sizeof_CacheHeader <= length (file_data f))%nat ->
  header_magic (CacheHeader_of_bytes (file_data f)) = CACHE_MAGIC ->
  header_version (CacheHeader_of_bytes (file_data f)) = CACHE_VERSION ->
  header_hash (CacheHeader_of_bytes (file_data f)) = hash ->
  let payload := drop sizeof_CacheHeader (file_data f) in
  let n := Z.to_nat (header_size (CacheHeader_of_bytes (file_data f))) in
  exists c',
    GetCachedShader P c w filename hash []
    = Returns (true, take n payload ++ replicate (n - length payload) Byte.x00, c')
    /\ length (take n payload ++ replicate (n - length payload) Byte.x00) = n.
Proof.
  intros Hmiss Hfile Hopen Hlen Hmagic Hversion Hhash payload n.
  rewrite (GetCachedShader_disk_lookup P c w filename hash [] f) by done.
  rewrite Hmagic, Hversion, Hhash.
  rewrite (bool_decide_eq_true_2 (CACHE_MAGIC = CACHE_MAGIC) eq_refl).
  rewrite (Z.eqb_refl hash), (Z.eqb_refl CACHE_VERSION). cbn [andb].
  fold payload. fold n.
  assert (Hread : read_into (vector_resize n []) payload
                  = take n payload ++ replicate (n - length payload) Byte.x00).
  { unfold read_into, vector_resize.
    by rewrite resize_nil, length_replicate, drop_replicate. }
  cbv zeta. rewrite Hread. eexists. split; [reflexivity|].
  rewrite length_app, length_take, length_replicate. lia.
Qed.

Lemma record_payload_is_resized_witness :
  exists c',
    GetCachedShader (sample_platform false d3d_ok dxc_ok) ShaderCache_new
      (set_files {[ "cache/shaders/Test_abc.cache" :=
                     {| file_data := take 26 (file_data sample_record);
                        file_mtime := 900 |} ]} sample_disk)
      "Test.hlsl" 0xabc []
    = Returns (true, [Byte.x44; Byte.x58; Byte.x00; Byte.x00], c').
Proof.
  destruct (record_payload_is_resized (sample_platform false d3d_ok dxc_ok)
              ShaderCache_new
              (set_files {[ "cache/shaders/Test_abc.cache" :=
                             {| file_data := take 26 (file_data sample_record);
                                file_mtime := 900 |} ]} sample_disk)
              "Test.hlsl" 0xabc
              {| file_data := take 26 (file_data sample_record); file_mtime := 900 |}
              ltac:(reflexivity) ltac:(vm_compute; reflexivity) ltac:(reflexivity)
              ltac:(vm_compute; lia) ltac:(reflexivity) ltac:(reflexivity)
              ltac:(reflexivity))
    as (c' & Hhit & _).
  exists c'. exact Hhit.
Defined.

(** With no cache directory [ClearCache] empties the memory tier and
    removes no file. *)
Lemma ClearCache_without_directory (c : ShaderCache) (w : World) :
  m_cacheDirectory c = "" -> ClearCache c w = (set_memoryCache ∅ c, w).
Proof. intros Hdir. unfold ClearCache. by rewrite Hdir. Qed.

(** X8. After [ClearCache] on a cache directory that can be removed,
    nothing is left in either tier: no lookup is answered, whatever the
    file name and the fingerprint. It misses, with the cache and the
    caller's vector as they were, or, when the status of the path that
    is no longer there cannot be read, leaves with that exception. *)
Theorem ClearCache_empties_both_tiers (P : Platform) (c : ShaderCache) (w : World)
    (filename : string) (hash : Z) (old : list byte) :
  m_cacheDirectory c <> "" ->
  is_open w (m_cacheDirectory c) = true ->
  let '(c', w') := ClearCache c w in
  GetCachedShader P c' w' filename hash old
  = if bool_decide (GetCacheFilePath P c' filename hash ∈ status_errors w')
    then Throws else Returns (false, old, c').
Proof.
  intros Hdir Hopen. unfold ClearCache.
  destruct (String.eqb_spec (m_cacheDirectory c) "") as [|_]; [done|].
  rewrite Hopen. cbn [negb].
  assert (Hfile : files (set_files
                           (filter (fun kv => String.prefix (m_cacheDirectory c) kv.1
                                              = false) (files w)) w)
                  !! GetCacheFilePath P (set_memoryCache ∅ c) filename hash = None).
  { cbn [files set_files]. apply map_lookup_filter_None_2. right.
    intros f _. cbn.
    change (GetCacheFilePath P (set_memoryCache ∅ c) filename hash)
      with (m_cacheDirectory c
            +:+ path_stem P filename +:+ "_" +:+ hex hash +:+ ".cache").
    by rewrite string_prefix_app. }
  rewrite GetCachedShader_no_record.
  - by rewrite Hfile.
  - unfold memory_hit. cbn. by rewrite lookup_empty.
  - by left.
Qed.

Lemma ClearCache_empties_both_tiers_witness :
  let '(c', w') := ClearCache ShaderCache_new sample_disk in
  GetCachedShader (sample_platform false d3d_ok dxc_ok) c' w' "Test.hlsl" 0xabc []
  = Returns (false, [], c').
Proof.
  apply (ClearCache_empties_both_tiers (sample_platform false d3d_ok dxc_ok)
           ShaderCache_new sample_disk "Test.hlsl" 0xabc []).
  - discriminate.
  - reflexivity.
Defined.

(** The last character of a string that ends in "/" is "/". *)
Lemma last_character_app (s : string) :
  String.substring (String.length (s +:+ "/") - 1) 1 (s +:+ "/") = "/".
Proof.
  induction s as [|x s IH]; [reflexivity|].
  rewrite string_app_cons. cbn [String.length].
  assert (Hlen : exists k, String.length (s +:+ "/") = S k).
  { rewrite string_length_app. cbn. exists (String.length s). lia. }
  destruct Hlen as [k Hk]. rewrite Hk in *.
  replace (S (S k) - 1)%nat with (S k) by lia.
  replace (S k - 1)%nat with k in IH by lia.
  exact IH.
Qed.

(** X9. The directory [SetCacheDirectory] stores is empty or ends in a
    path separator: an empty name stays empty, a name that ends in "/"
    or "\" stays as it is, any other gets "/" appended. Setting the
    stored directory again changes nothing, and the memory tier is left
    as it was. *)
Theorem SetCacheDirectory_normalizes (c : ShaderCache) (directory : string) :
  let c' := SetCacheDirectory c directory in
  let d := m_cacheDirectory c' in
  let last := String.substring (String.length d - 1) 1 d in
  (d = "" <-> directory = "")
  /\ (directory <> "" -> last = "/" \/ last = "\")
  /\ (d = directory \/ d = directory +:+ "/")
  /\ SetCacheDirectory c' d = c'
  /\ m_memoryCache c' = m_memoryCache c.
Proof.
  cbv zeta. unfold SetCacheDirectory. cbn [m_cacheDirectory m_memoryCache].
  destruct (String.eqb_spec directory "") as [->|Hne]; [cbn; by repeat split; auto|].
  cbn [negb andb].
  destruct (String.eqb_spec
              (String.substring (String.length directory - 1) 1 directory) "/")
    as [Hslash|Hnoslash]; cbn [negb andb].
  { rewrite Hslash. cbn. repeat split; auto; try done.
    destruct (String.eqb_spec directory ""); [done|]. by cbn. }
  destruct (String.eqb_spec
              (String.substring (String.length directory - 1) 1 directory) "\")
    as [Hback|Hnoback]; cbn [negb andb].
  { rewrite Hback. cbn. repeat split; auto; try done.
    destruct (String.eqb_spec directory ""); [done|]. by cbn. }
  rewrite last_character_app.
  assert (Hnonempty : directory +:+ "/" <> "").
  { destruct directory; [done|]. by rewrite string_app_cons. }
  repeat split; auto; try done.
  destruct (String.eqb_spec (directory +:+ "/") ""); [done|]. by cbn.
Qed.

(** ** The request cycle, further *)

(** A lookup that hits leaves the entry it returned in the memory tier. *)
Lemma GetCachedShader_hit_memory (P : Platform) (c : ShaderCache) (w : World)
    (filename : string) (hash : Z) (old out : list byte) (k : ShaderCache) :
  GetCachedShader P c w filename hash old = Returns (true, out, k) ->
  m_cacheDirectory k = m_cacheDirectory c
  /\ exists e, m_memoryCache k !! filename = Some e
               /\ entry_hash e = hash /\ entry_bytecode e = out.
Proof.
  unfold GetCachedShader.
  assert (Hdisk : GetCachedShader_disk P c w filename hash old
                  = Returns (true, out, k) ->
                  m_cacheDirectory k = m_cacheDirectory c
                  /\ exists e, m_memoryCache k !! filename = Some e
                               /\ entry_hash e = hash /\ entry_bytecode e = out).
  { unfold GetCachedShader_disk. repeat case_match; intros Heq; inversion Heq; subst.
    split; [done|]. eexists. cbn. rewrite lookup_insert_eq. done. }
  destruct (m_memoryCache c !! filename) as [it|] eqn:Hit; [|done].
  destruct (Z.eqb_spec (entry_hash it) hash) as [Hhash|]; [|done].
  intros Heq. inversion Heq; subst. split; [done|]. by exists it.
Qed.

(** A lookup whose entry is in the memory tier does not look at the disk. *)
Lemma GetCachedShader_from_memory (P : Platform) (c : ShaderCache) (w : World)
    (filename : string) (old : list byte) (e : CacheEntry) :
  m_memoryCache c !! filename = Some e ->
  GetCachedShader P c w filename (entry_hash e) old
  = Returns (true, entry_bytecode e, c).
Proof. intros He. unfold GetCachedShader. by rewrite He, Z.eqb_refl. Qed.

(** X10. Once a request with caching on and a source name has come back
    as a success, and its cache file could be written, the same source,
    options and name are answered from the memory tier: with the same
    bytecode, without a backend being entered, whatever the files on
    disk are by then and whatever entry point and shader type are asked
    for. The answer carries neither the warnings of the compilation nor
    any error. *)
Theorem repeated_request_is_served_from_memory (P : Platform) (c : ShaderCompiler)
    (w : World) (source entryPoint : string) (type : ShaderType)
    (options : CompileOptions) (sourceName : string) (r : CompiledShader)
    (c' : ShaderCompiler) (w' : World) (t : list Call)
    (w2 : World) (entryPoint2 : string) (type2 : ShaderType) :
  CompileFromSource P c w source entryPoint type options sourceName
  = Returns (r, c', w', t) ->
  success r = true ->
  m_cacheEnabled c = true ->
  sourceName <> "" ->
  is_open w (m_cacheDirectory (m_cache c)) = true ->
  is_open w (GetCacheFilePath P (m_cache c) sourceName
               (CalculateSourceHash P source options)) = true ->
  exists r2,
    CompileFromSource P c' w2 source entryPoint2 type2 options sourceName
    = Returns (r2, c', w2, [Call_ExtractReflectionData (bytecode r)])
    /\ bytecode r2 = bytecode r /\ success r2 = true
    /\ warnings r2 = [] /\ errors r2 = [].
Proof.
  intros Hret Hok Hon Hname Hdir Hpath.
  assert (Huse : m_cacheEnabled c && negb (String.eqb sourceName "") = true).
  { rewrite Hon. by destruct (String.eqb_spec sourceName ""). }
  assert (Hentry : m_cacheEnabled c' = true
                   /\ exists e, m_memoryCache (m_cache c') !! sourceName = Some e
                                /\ entry_hash e = CalculateSourceHash P source options
                                /\ entry_bytecode e = bytecode r).
  { apply CompileFromSource_returned in Hret
      as [(k & Hlookup & _ & _ & _ & -> & _)
         | [_ [(Hs & _) | (r0 & t0 & _ & _ & -> & _ & Hcw)]]]; [|congruence|].
    - unfold cache_lookup in Hlookup. rewrite Huse in Hlookup.
      apply GetCachedShader_hit_memory in Hlookup as [_ He]. by split.
    - rewrite Huse, CacheShader_stored in Hcw by done. inversion Hcw; subst.
      split; [done|]. eexists. cbn. rewrite lookup_insert_eq. done. }
  destruct Hentry as (Hon' & e & He & Hhash & Hbytes).
  unfold CompileFromSource, cache_lookup. rewrite Hon'.
  destruct (String.eqb_spec sourceName "") as [|_]; [done|]. cbn [negb andb].
  rewrite <- Hhash, (GetCachedShader_from_memory P _ w2 sourceName [] e He).
  rewrite set_cache_same, Hbytes. cbn. eexists. split; [reflexivity|]. done.
Qed.

Lemma repeated_request_is_served_from_memory_witness :
  let P := sample_platform true d3d_ok
             (DxcCompiled true (Some sample_bytecode) (Some "warning: unused")) in
  exists r c' w' t r2,
    CompileFromSource P (Initialize P ShaderCompiler_new).2 empty_world
      sample_source "main" Pixel CompileOptions_default "Test.hlsl"
    = Returns (r, c', w', t)
    /\ warnings r = ["warning: unused"]
    /\ CompileFromSource P c' empty_world sample_source "main" Pixel
         CompileOptions_default "Test.hlsl"
       = Returns (r2, c', empty_world, [Call_ExtractReflectionData (bytecode r)])
    /\ bytecode r2 = bytecode r /\ warnings r2 = [].
Proof.
  cbv zeta.
  set (P := sample_platform true d3d_ok
              (DxcCompiled true (Some sample_bytecode) (Some "warning: unused"))).
  destruct (CompileFromSource P (Initialize P ShaderCompiler_new).2 empty_world
              sample_source "main" Pixel CompileOptions_default "Test.hlsl")
    as [[[[r c'] w'] t]| |] eqn:Hret;
    [|vm_compute in Hret; discriminate|vm_compute in Hret; discriminate].
  assert (Hval : success r = true /\ warnings r = ["warning: unused"]).
  { pose proof Hret as Hv. vm_compute in Hv. by inversion Hv. }
  destruct Hval as [Hok Hwarn].
  destruct (repeated_request_is_served_from_memory P _ _ _ _ _ _ _ _ _ _ _
              empty_world "main" Pixel Hret Hok eq_refl
              ltac:(discriminate) eq_refl eq_refl)
    as (r2 & Hret2 & Hbytes & _ & Hwarn2 & _).
  by exists r, c', w', t, r2.
Defined.

(** X11. When the cache directory or the cache file cannot be written, a
    request that was compiled still comes back as a success, but nothing
    is kept of it, in memory or on disk: compiler and world are as they
    were before the request. *)
Theorem unwritable_cache_keeps_nothing (P : Platform) (c : ShaderCompiler)
    (w : World) (source entryPoint : string) (type : ShaderType)
    (options : CompileOptions) (sourceName : string) (r : CompiledShader)
    (c' : ShaderCompiler) (w' : World) (t : list Call) (b : Backend) :
  CompileFromSource P c w source entryPoint type options sourceName
  = Returns (r, c', w', t) ->
  In (EnterBackend b) t ->
  is_open w (m_cacheDirectory (m_cache c)) = false
  \/ is_open w (GetCacheFilePath P (m_cache c) sourceName
                  (CalculateSourceHash P source options)) = false ->
  c' = c /\ w' = w.
Proof.
  intros Hret Hin Hclosed.
  apply CompileFromSource_returned in Hret
    as [(k & _ & _ & _ & _ & _ & _ & ->)
       | [_ [(_ & -> & -> & _) | (r0 & t0 & _ & _ & _ & _ & Hcw)]]];
    [by destruct Hin as [|[]]|done|].
  destruct (m_cacheEnabled c && negb (String.eqb sourceName ""));
    [|by inversion Hcw].
  unfold CacheShader in Hcw.
  destruct (is_open w (m_cacheDirectory (m_cache c))); cbn [negb] in Hcw.
  - destruct Hclosed as [|Hfile]; [done|]. rewrite Hfile in Hcw. cbn in Hcw.
    inversion Hcw. by rewrite set_cache_same.
  - inversion Hcw. by rewrite set_cache_same.
Qed.

Lemma unwritable_cache_keeps_nothing_witness :
  let P := sample_platform false d3d_ok dxc_ok in
  let w := {| files := ∅; denied := {[ "cache/shaders/" ]}; status_errors := ∅;
              now := 1000 |} in
  exists r t,
    CompileFromSource P (Initialize P ShaderCompiler_new).2 w
      sample_source "main" Pixel CompileOptions_default "Test.hlsl"
    = Returns (r, (Initialize P ShaderCompiler_new).2, w, t)
    /\ success r = true.
Proof.
  cbv zeta.
  set (P := sample_platform false d3d_ok dxc_ok).
  set (w := {| files := ∅; denied := {[ "cache/shaders/" ]}; status_errors := ∅;
               now := 1000 |}).
  destruct (CompileFromSource P (Initialize P ShaderCompiler_new).2 w
              sample_source "main" Pixel CompileOptions_default "Test.hlsl")
    as [[[[r c'] w'] t]| |] eqn:Hret;
    [|vm_compute in Hret; discriminate|vm_compute in Hret; discriminate].
  assert (Hval : success r = true /\ In (EnterBackend Legacy) t).
  { pose proof Hret as Hv. vm_compute in Hv. inversion Hv. split; [done|by left]. }
  destruct Hval as [Hok Hin].
  destruct (unwritable_cache_keeps_nothing P _ _ _ _ _ _ _ _ _ _ _ Legacy Hret Hin
              (or_introl eq_refl)) as [-> ->].
  by exists r, t.
Defined.

(** X12. With caching switched off, or without a source name, a request
    neither reads nor writes the cache: it always enters the selected
    backend, and leaves compiler and world as they were. *)
Theorem cache_is_bypassed (P : Platform) (c : ShaderCompiler)
    (w : World) (source entryPoint : string) (type : ShaderType)
    (options : CompileOptions) (sourceName : string) (r : CompiledShader)
    (c' : ShaderCompiler) (w' : World) (t : list Call) :
  m_cacheEnabled c = false \/ sourceName = "" ->
  CompileFromSource P c w source entryPoint type options sourceName
  = Returns (r, c', w', t) ->
  c' = c /\ w' = w /\ In (EnterBackend (selected_backend c options)) t.
Proof.
  intros Hoff Hret.
  assert (Huse : m_cacheEnabled c && negb (String.eqb sourceName "") = false).
  { destruct Hoff as [-> | ->]; [done|]. by rewrite andb_false_r. }
  apply CompileFromSource_returned in Hret
    as [(k & Hlookup & _)
       | [_ [(_ & -> & -> & Hb) | (r0 & t0 & Hb & _ & _ & -> & Hcw)]]].
  - unfold cache_lookup in Hlookup. rewrite Huse in Hlookup. by inversion Hlookup.
  - split; [done|]. split; [done|].
    apply CompileWithBackend_trace in Hb as (t1 & -> & _). by left.
  - rewrite Huse in Hcw. inversion Hcw; subst. split; [done|]. split; [done|].
    destruct (CompileWithBackend_trace P c source entryPoint type options
                sourceName r0 t0 (or_introl Hb)) as (t1 & -> & _).
    by left.
Qed.

Lemma cache_is_bypassed_witness :
  let P := sample_platform false d3d_ok dxc_ok in
  let c := (Initialize P ShaderCompiler_new).2 in
  exists r t,
    CompileFromSource P c sample_disk sample_source "main" Pixel
      CompileOptions_default ""
    = Returns (r, c, sample_disk, t)
    /\ In (EnterBackend Legacy) t.
Proof.
  cbv zeta.
  set (P := sample_platform false d3d_ok dxc_ok).
  destruct (CompileFromSource P (Initialize P ShaderCompiler_new).2 sample_disk
              sample_source "main" Pixel CompileOptions_default "")
    as [[[[r c'] w'] t]| |] eqn:Hret;
    [|vm_compute in Hret; discriminate|vm_compute in Hret; discriminate].
  destruct (cache_is_bypassed P _ _ _ _ _ _ _ _ _ _ _ (or_intror eq_refl) Hret)
    as (-> & -> & Hin).
  by exists r, t.
Defined.

Lemma result_invariant_new : result_invariant CompiledShader_new.
Proof. unfold result_invariant. cbn. repeat split; (done || lia). Qed.

Lemma result_invariant_error (e : string) :
  result_invariant (push_error e CompiledShader_new).
Proof. unfold result_invariant. cbn. repeat split; (done || lia). Qed.

Lemma CompileWithLegacyCompiler_invariant (P : Platform) (source entryPoint : string)
    (type : ShaderType) (options : CompileOptions) (sourceName : string) :
  result_invariant
    (CompileWithLegacyCompiler P source entryPoint type options sourceName).1.
Proof.
  unfold CompileWithLegacyCompiler.
  destruct (legacy_profile type) as [profile|]; [|apply result_invariant_error].
  cbv zeta.
  destruct (D3DCompile P source _ (macros options) entryPoint profile _)
    as [[] [blob|] [errorText|]];
    unfold result_invariant; cbn; repeat split; (done || lia).
Qed.

Lemma CompileWithDxc_invariant (P : Platform) (c : ShaderCompiler)
    (source entryPoint : string) (type : ShaderType) (options : CompileOptions)
    (sourceName : string) (r : CompiledShader) (t : list Call) :
  CompileWithDxc P c source entryPoint type options sourceName = Continue (r, t)
  \/ CompileWithDxc P c source entryPoint type options sourceName = Return_now (r, t) ->
  result_invariant r.
Proof.
  unfold CompileWithDxc.
  destruct (DxcCompile P source _) as [what| | |[] [blob|] [errorText|]];
    destruct (m_dxcUtils c), (m_dxcCompiler c); cbn [negb orb];
    intros [Heq|Heq]; inversion Heq; subst;
    try apply result_invariant_error; try apply result_invariant_new;
    try (destruct (0 <? String.length errorText)%nat);
    unfold result_invariant; cbn; repeat split; (done || lia).
Qed.

(** What a request found in the cache comes back as. *)
Lemma CompileFromSource_hit (P : Platform) (c : ShaderCompiler) (w : World)
    (source entryPoint : string) (type : ShaderType) (options : CompileOptions)
    (sourceName : string) (code : list byte) (k : ShaderCache) :
  cache_lookup P c w source options sourceName = Returns (true, code, k) ->
  CompileFromSource P c w source entryPoint type options sourceName
  = Returns ((ExtractReflectionData code
                (set_success true (set_bytecode code CompiledShader_new))).1,
             set_cache k c, w, [Call_ExtractReflectionData code]).
Proof. intros Hlookup. unfold CompileFromSource. by rewrite Hlookup. Qed.

(** X13. Every result the compiler hands back is of one shape: a success
    carries no error, a failure carries no bytecode, there is at most one
    error and at most one warning and never both, and the disassembly is
    never filled in. *)
Theorem compile_result_invariant (P : Platform) (c : ShaderCompiler) (w : World)
    (source name entryPoint : string) (type : ShaderType) (options : CompileOptions)
    (r : CompiledShader) (c' : ShaderCompiler) (w' : World) (t : list Call) :
  CompileFromSource P c w source entryPoint type options name
  = Returns (r, c', w', t)
  \/ CompileFromFile P c w name entryPoint type options = Returns (r, c', w', t) ->
  result_invariant r.
Proof.
  assert (Hsource : forall source,
            CompileFromSource P c w source entryPoint type options name
            = Returns (r, c', w', t) -> result_invariant r).
  { clear source. intros source Hret.
    assert (Hbackend : forall r0 t0,
              CompileWithBackend P c source entryPoint type options name
              = Continue (r0, t0)
              \/ CompileWithBackend P c source entryPoint type options name
                 = Return_now (r0, t0) ->
              result_invariant r0).
    { intros r0 t0. unfold CompileWithBackend.
      destruct (selected_backend c options).
      - pose proof (CompileWithLegacyCompiler_invariant P source entryPoint type
                      options name) as Hinv.
        intros [Heq|Heq]; inversion Heq as [Heq']. by rewrite Heq' in Hinv.
      - apply CompileWithDxc_invariant. }
    pose proof Hret as Hcases. apply CompileFromSource_returned in Hcases
      as [(k & Hlookup & _)
         | [_ [(_ & _ & _ & Hb) | (r0 & t0 & Hb & _ & -> & _)]]].
    - rewrite (CompileFromSource_hit _ _ _ _ _ _ _ _ _ _ Hlookup) in Hret.
      inversion Hret. unfold result_invariant. cbn. repeat split; (done || lia).
    - by apply (Hbackend r t).
    - by apply (Hbackend r0 t0); left. }
  intros [Hret|Hret]; [by apply (Hsource source)|].
  unfold CompileFromFile in Hret.
  destruct (String.eqb (LoadShaderSource w name) "").
  - inversion Hret. apply result_invariant_error.
  - by apply (Hsource (LoadShaderSource w name)).
Qed.

Lemma compile_result_invariant_witness :
  let P := sample_platform false d3d_fails dxc_ok in
  exists r c' w' t,
    CompileFromSource P (Initialize P ShaderCompiler_new).2 empty_world
      sample_source "main" Pixel CompileOptions_default "Test.hlsl"
    = Returns (r, c', w', t)
    /\ result_invariant r
    /\ errors r = ["error X3000: syntax error"].
Proof.
  cbv zeta.
  set (P := sample_platform false d3d_fails dxc_ok).
  destruct (CompileFromSource P (Initialize P ShaderCompiler_new).2 empty_world
              sample_source "main" Pixel CompileOptions_default "Test.hlsl")
    as [[[[r c'] w'] t]| |] eqn:Hret;
    [|vm_compute in Hret; discriminate|vm_compute in Hret; discriminate].
  exists r, c', w', t. split; [done|]. split.
  - exact (compile_result_invariant P _ _ _ _ _ _ _ _ _ _ _ (or_introl Hret)).
  - pose proof Hret as Hv. vm_compute in Hv. by inversion Hv.
Defined.

(** ** The compiler between [Initialize] and [Shutdown] *)

Lemma run_operation_holds_dxc (P : Platform) (c : ShaderCompiler) (w : World)
    (op : Operation) (c' : ShaderCompiler) (w' : World) :
  op <> Op_Shutdown ->
  holds_dxc c ->
  run_operation P c w op = Returns (c', w') ->
  holds_dxc c'.
Proof.
  intros Hop Hdxc. destruct op; cbn; try done.
  - unfold CompileFromFile.
    destruct (String.eqb (LoadShaderSource w filename) "").
    + intros Heq. inversion Heq. by subst.
    + destruct (CompileFromSource _ _ _ _ _ _ _ _) as [[[[r c1] w1] t]| |] eqn:Hret;
        [|done|done].
      intros Heq. inversion Heq; subst.
      by apply CompileFromSource_compiler in Hret as [k ->].
  - destruct (CompileFromSource _ _ _ _ _ _ _ _) as [[[[r c1] w1] t]| |] eqn:Hret;
      [|done|done].
    intros Heq. inversion Heq; subst.
    by apply CompileFromSource_compiler in Hret as [k ->].
  - intros Heq. inversion Heq. by subst.
  - intros Heq. inversion Heq. by subst.
  - unfold CheckForShaderChanges. intros Heq. inversion Heq. subst. by case_match.
  - destruct (ClearCache (m_cache c) w). intros Heq. inversion Heq. by subst.
  - intros Heq. inversion Heq. by subst.
Qed.

(** X14. From [Initialize] on, and as long as [Shutdown] is not called,
    no operation dereferences a null interface, whether DXC came up or
    not and whatever happens to the files in between: every request
    returns, or leaves with the exception of its cache lookup, which
    changes nothing; the compiler keeps holding the DXC interfaces it
    needs, so that nothing it is asked next faults either. *)
Theorem no_fault_before_Shutdown (P : Platform) (c0 : ShaderCompiler) (w0 : World)
    (ops : list ((World -> World) * Operation)) :
  Forall (fun step => step.2 <> Op_Shutdown) ops ->
  exists c w,
    run_operations P (Initialize P c0).2 w0 ops = Returns (c, w)
    /\ holds_dxc c
    /\ forall w' op, run_operation P c w' op <> AccessViolation.
Proof.
  intros Hops.
  assert (Hrun : forall c w,
            holds_dxc c ->
            exists c' w', run_operations P c w ops = Returns (c', w') /\ holds_dxc c').
  { induction Hops as [|[interference op] ops Hop _ IH]; intros c w Hdxc; cbn.
    - by eexists _, _.
    - pose proof (run_operation_no_violation P c (interference w) op Hdxc) as Hno.
      destruct (run_operation P c (interference w) op) as [[c1 w1]| |] eqn:Hstep;
        [|by apply IH|done].
      apply IH. by eapply run_operation_holds_dxc. }
  destruct (Hrun _ w0 (Initialize_holds_dxc P c0)) as (c & w & Hret & Hdxc).
  exists c, w. split; [done|]. split; [done|].
  intros w' op. by apply run_operation_no_violation.
Qed.

Lemma no_fault_before_Shutdown_witness :
  let P := sample_platform true d3d_ok dxc_ok in
  let cachePath :=
    GetCacheFilePath P ShaderCache_new "Test.hlsl"
      (CalculateSourceHash P sample_source CompileOptions_default) in
  let unreadable := fun w : World =>
    {| files := files w; denied := denied w; status_errors := {[ cachePath ]};
       now := now w |} in
  exists c w,
    run_operations P (Initialize P ShaderCompiler_new).2 empty_world
      [(id, Op_CompileFromSource sample_source "main" Pixel CompileOptions_default
              "Test.hlsl");
       (id, Op_ClearCache);
       (unreadable,
        Op_CompileFromSource sample_source "main" Pixel CompileOptions_default
          "Test.hlsl");
       (id, Op_CompileFromFile "Test.hlsl" "main" Vertex CompileOptions_default)]
    = Returns (c, w)
    /\ holds_dxc c
    /\ run_operation P c w Op_Shutdown <> AccessViolation.
Proof.
  cbv zeta.
  destruct (no_fault_before_Shutdown (sample_platform true d3d_ok dxc_ok)
              ShaderCompiler_new empty_world
              [(id, Op_CompileFromSource sample_source "main" Pixel
                      CompileOptions_default "Test.hlsl");
               (id, Op_ClearCache);
               (fun w : World =>
                  {| files := files w; denied := denied w;
                     status_errors :=
                       {[ GetCacheFilePath (sample_platform true d3d_ok dxc_ok)
                            ShaderCache_new "Test.hlsl"
                            (CalculateSourceHash (sample_platform true d3d_ok dxc_ok)
                               sample_source CompileOptions_default) ]};
                     now := now w |},
                Op_CompileFromSource sample_source "main" Pixel
                  CompileOptions_default "Test.hlsl");
               (id, Op_CompileFromFile "Test.hlsl" "main" Vertex
                      CompileOptions_default)])
    as (c & w & Hret & Hdxc & Hnext).
  { repeat constructor; discriminate. }
  exists c, w. split; [exact Hret|]. split; [exact Hdxc|]. apply Hnext.
Defined.

(** A request not found in the cache that goes to the legacy backend
    comes back, whatever interfaces the compiler holds. *)
Lemma legacy_request_returns (P : Platform) (c : ShaderCompiler) (w : World)
    (source entryPoint : string) (type : ShaderType) (options : CompileOptions)
    (sourceName : string) (code : list byte) (k : ShaderCache) :
  cache_lookup P c w source options sourceName = Returns (false, code, k) ->
  selected_backend c options = Legacy ->
  exists r c' w' t,
    CompileFromSource P c w source entryPoint type options sourceName
    = Returns (r, c', w', t)
    /\ In (EnterBackend Legacy) t.
Proof.
  intros Hlookup Hsel.
  pose proof (cache_lookup_miss _ _ _ _ _ _ _ _ Hlookup) as ->.
  unfold CompileFromSource. rewrite Hlookup, set_cache_same.
  unfold CompileWithBackend. rewrite Hsel.
  pose proof (CompileWithLegacyCompiler_trace P source entryPoint type options
                sourceName) as Htrace.
  destruct (CompileWithLegacyCompiler P source entryPoint type options sourceName)
    as [r0 t0].
  cbn [snd] in Htrace. subst t0.
  destruct (success r0); [|eexists _, _, _, _; split; [reflexivity|by left]].
  cbv beta iota zeta delta [ExtractReflectionData].
  destruct (m_cacheEnabled c && negb (String.eqb sourceName "")).
  - match goal with
    | |- context [CacheShader ?p ?k ?v ?n ?h ?b] =>
      destruct (CacheShader p k v n h b)
    end.
    eexists _, _, _, _. split; [reflexivity|]. by left.
  - eexists _, _, _, _. split; [reflexivity|]. by left.
Qed.

(** X15. [Shutdown] releases the DXC interfaces and leaves the choice of
    backend as it was. After it, on a compiler that had DXC, a request
    for tier 6.0 or above whose lookup returned without finding it in
    the cache faults on the released interface (unless DXC's own
    argument conversion throws first), while a request for a lower tier
    is still answered. *)
Theorem request_after_Shutdown (P : Platform) (c0 : ShaderCompiler) (w : World)
    (source entryPoint : string) (type : ShaderType) (options : CompileOptions)
    (sourceName : string) :
  dxc_initialized P = true ->
  let c := Shutdown (Initialize P c0).2 in
  (exists code k,
     cache_lookup P c w source options sourceName = Returns (false, code, k)) ->
  (forall arguments what, DxcCompile P source arguments <> DxcThrows what) ->
  if ShaderModel_le (targetModel options) SM_5_1
  then exists r c' w' t,
         CompileFromSource P c w source entryPoint type options sourceName
         = Returns (r, c', w', t)
         /\ In (EnterBackend Legacy) t
  else CompileFromSource P c w source entryPoint type options sourceName
       = AccessViolation.
Proof.
  intros Hinit c (code & k & Hlookup) Hnothrow.
  assert (Hflag : m_useLegacyCompiler c = false).
  { unfold c. cbn. by rewrite Initialize_flag, Hinit. }
  assert (Hnull : m_dxcUtils c = false) by reflexivity.
  clearbody c.
  destruct (ShaderModel_le (targetModel options) SM_5_1) eqn:Htier.
  - apply (legacy_request_returns P c w source entryPoint type options sourceName
             code k Hlookup).
    unfold selected_backend. by rewrite Hflag, Htier.
  - pose proof (cache_lookup_miss _ _ _ _ _ _ _ _ Hlookup) as ->.
    unfold CompileFromSource. rewrite Hlookup, set_cache_same.
    unfold CompileWithBackend, selected_backend. rewrite Hflag, Htier. cbn [orb].
    unfold CompileWithDxc. rewrite Hnull. cbn [negb orb].
    specialize (Hnothrow (BuildCompilerArguments options
                            ++ ["-E"; entryPoint; "-T";
                                GetTargetProfile type (targetModel options)])).
    destruct (DxcCompile P source _) as [what| | |]; [by destruct (Hnothrow what)|..];
      reflexivity.
Qed.

Lemma request_after_Shutdown_witness :
  let P := sample_platform true d3d_ok dxc_ok in
  CompileFromSource P (Shutdown (Initialize P ShaderCompiler_new).2) empty_world
    sample_source "main" Pixel CompileOptions_default "Test.hlsl"
  = AccessViolation.
Proof.
  cbv zeta.
  exact (request_after_Shutdown (sample_platform true d3d_ok dxc_ok)
           ShaderCompiler_new empty_world sample_source "main" Pixel
           CompileOptions_default "Test.hlsl" eq_refl
           (ex_intro _ _ (ex_intro _ _ eq_refl))
           ltac:(intros arguments what; discriminate)).
Defined.

(** ** What the backends are given *)

(** X16. Neither backend is given all of the options. DXC gets no macro
    and no include path: two requests that differ in nothing else are
    one and the same to it. The legacy toolchain gets the macros, but
    neither the shader model, nor the optimisation level, nor the include
    paths, nor the unbounded-arrays option. *)
Theorem backends_ignore_options (P : Platform) (c : ShaderCompiler)
    (source entryPoint : string) (type : ShaderType)
    (o1 o2 : CompileOptions) (sourceName : string) :
  enableDebugInfo o1 = enableDebugInfo o2 ->
  enableOptimization o1 = enableOptimization o2 ->
  warningsAsErrors o1 = warningsAsErrors o2 ->
  ieee754Compliance o1 = ieee754Compliance o2 ->
  (targetModel o1 = targetModel o2 ->
   optimizationLevel o1 = optimizationLevel o2 ->
   enableUnboundedResourceArrays o1 = enableUnboundedResourceArrays o2 ->
   CompileWithDxc P c source entryPoint type o1 sourceName
   = CompileWithDxc P c source entryPoint type o2 sourceName)
  /\ (macros o1 = macros o2 ->
      CompileWithLegacyCompiler P source entryPoint type o1 sourceName
      = CompileWithLegacyCompiler P source entryPoint type o2 sourceName).
Proof.
  intros Hdebug Hopt Hwerror Hieee. split.
  - intros Hmodel Hlevel Hunbounded.
    unfold CompileWithDxc, BuildCompilerArguments.
    by rewrite Hdebug, Hopt, Hwerror, Hieee, Hmodel, Hlevel, Hunbounded.
  - intros Hmacros.
    unfold CompileWithLegacyCompiler, legacy_flags.
    by rewrite Hdebug, Hopt, Hwerror, Hieee, Hmacros.
Qed.

Lemma backends_ignore_options_witness :
  let with_macro := {| targetModel := SM_6_4;
                       macros := [{| macro_name := "QUALITY";
                                     macro_definition := "2" |}];
                       includePaths := ["include/"];
                       enableDebugInfo := false; enableOptimization := true;
                       warningsAsErrors := false; ieee754Compliance := false;
                       enableUnboundedResourceArrays := false;
                       optimizationLevel := 3 |} in
  CompileWithDxc telling_platform ShaderCompiler_new sample_source "main" Pixel
    with_macro "Test.hlsl"
  = CompileWithDxc telling_platform ShaderCompiler_new sample_source "main" Pixel
      CompileOptions_default "Test.hlsl".
Proof.
  cbv zeta.
  apply (backends_ignore_options telling_platform ShaderCompiler_new sample_source
           "main" Pixel _ CompileOptions_default "Test.hlsl"
           eq_refl eq_refl eq_refl eq_refl);
    reflexivity.
Defined.

(** ** Fingerprints, further *)

Lemma xor64_cancel (h a b : Z) : xor64 h a = xor64 h b -> a = b.
Proof.
  unfold xor64. intros Heq.
  apply (f_equal (Z.lxor h)) in Heq.
  by rewrite <- !Z.lxor_assoc, Z.lxor_nilpotent, !Z.lxor_0_l in Heq.
Qed.

Lemma mod_add_cancel (a b k M : Z) :
  0 <= a < M -> 0 <= b < M -> (a + k) mod M = (b + k) mod M -> a = b.
Proof.
  intros Ha Hb Heq.
  assert (HM : 0 < M) by lia.
  pose proof (Z.div_mod (a + k) M ltac:(lia)) as Hqa.
  pose proof (Z.div_mod (b + k) M ltac:(lia)) as Hqb.
  rewrite Heq in Hqa.
  assert (Hdiff : a - b = M * ((a + k) / M - (b + k) / M)) by lia.
  assert (Hq : (a + k) / M - (b + k) / M = 0) by nia.
  lia.
Qed.

(** The last value mixed into a fingerprint can be read off it. *)
Lemma hash_mix_cancel (hash t1 t2 : Z) :
  0 <= t1 < 2 ^ 64 -> 0 <= t2 < 2 ^ 64 ->
  hash_mix hash t1 = hash_mix hash t2 -> t1 = t2.
Proof.
  unfold hash_mix. intros H1 H2 Heq. apply xor64_cancel in Heq.
  unfold add64, wrap64 in Heq.
  rewrite !Zplus_mod_idemp_l in Heq.
  rewrite <- !Z.add_assoc in Heq.
  by apply mod_add_cancel in Heq.
Qed.

(** X17. Without macros, the optimisation level is the last value mixed
    into the fingerprint, and it can be read off it: two requests with
    the same source that differ in their optimisation level only never
    have the same fingerprint. *)
Theorem fingerprint_separates_optimization_levels (P : Platform) (source : string)
    (o1 o2 : CompileOptions) :
  macros o1 = [] -> macros o2 = [] ->
  targetModel o1 = targetModel o2 ->
  enableDebugInfo o1 = enableDebugInfo o2 ->
  enableOptimization o1 = enableOptimization o2 ->
  0 <= optimizationLevel o1 < 2 ^ 32 ->
  0 <= optimizationLevel o2 < 2 ^ 32 ->
  optimizationLevel o1 <> optimizationLevel o2 ->
  CalculateSourceHash P source o1 <> CalculateSourceHash P source o2.
Proof.
  intros Hm1 Hm2 Hmodel Hdebug Hopt Hl1 Hl2 Hne Heq.
  unfold CalculateSourceHash in Heq.
  rewrite Hm1, Hm2, Hmodel, Hdebug, Hopt in Heq. cbn [fold_left] in Heq.
  apply hash_mix_cancel in Heq.
  - unfold add32, wrap32 in Heq.
    rewrite !Zplus_mod_idemp_l in Heq.
    apply mod_add_cancel in Heq; lia.
  - unfold add32, wrap32.
    pose proof (Z.mod_pos_bound (optimizationLevel o1 mod 2 ^ 32 + 2654435769)
                  (2 ^ 32) ltac:(lia)).
    lia.
  - unfold add32, wrap32.
    pose proof (Z.mod_pos_bound (optimizationLevel o2 mod 2 ^ 32 + 2654435769)
                  (2 ^ 32) ltac:(lia)).
    lia.
Qed.

Lemma fingerprint_separates_optimization_levels_witness :
  CalculateSourceHash telling_platform sample_source CompileOptions_default
  <> CalculateSourceHash telling_platform sample_source
       {| targetModel := SM_6_4; macros := []; includePaths := [];
          enableDebugInfo := false; enableOptimization := true;
          warningsAsErrors := false; ieee754Compliance := false;
          enableUnboundedResourceArrays := false; optimizationLevel := 0 |}.
Proof.
  apply fingerprint_separates_optimization_levels;
    (reflexivity || (cbn; lia) || discriminate).
Defined.

(** The text a macro enters the fingerprint with. *)
Lemma CalculateSourceHash_macros (P : Platform) (source : string)
    (o1 o2 : CompileOptions) :
  targetModel o1 = targetModel o2 ->
  enableDebugInfo o1 = enableDebugInfo o2 ->
  enableOptimization o1 = enableOptimization o2 ->
  optimizationLevel o1 = optimizationLevel o2 ->
  map (fun macro => macro_name macro +:+ "=" +:+ macro_definition macro) (macros o1)
  = map (fun macro => macro_name macro +:+ "=" +:+ macro_definition macro) (macros o2) ->
  CalculateSourceHash P source o1 = CalculateSourceHash P source o2.
Proof.
  intros Hmodel Hdebug Hopt Hlevel Htext.
  unfold CalculateSourceHash. rewrite Hmodel, Hdebug, Hopt, Hlevel.
  generalize (hash_mix
                (hash_mix
                   (hash_mix
                      (hash_mix (wrap64 (std_hash P source))
                         (add64 (ShaderModel_value (targetModel o2)) 2654435769))
                      (add32 (bool_to_int (enableDebugInfo o2)) 2654435769))
                   (add32 (bool_to_int (enableOptimization o2)) 2654435769))
                (add32 (wrap32 (optimizationLevel o2)) 2654435769)) as h.
  revert Htext. generalize (macros o2) as l2. generalize (macros o1) as l1.
  induction l1 as [|m1 l1 IH]; intros [|m2 l2] Htext h; cbn in Htext;
    try discriminate; [done|].
  inversion Htext as [[Hhead Htail]]. cbn [fold_left]. rewrite Hhead.
  by apply IH.
Qed.

Lemma string_app_assoc (a b c : string) : (a +:+ b) +:+ c = a +:+ (b +:+ c).
Proof.
  induction a as [|x a IH]; [by rewrite !string_app_nil|].
  by rewrite !string_app_cons, IH.
Qed.

(** X18. A macro enters the fingerprint as the one text name=definition,
    so the place of the boundary between the two is lost: moving a part
    of the name that follows an equals sign over to the definition gives
    another list of macros, and the same fingerprint. *)
Theorem macro_boundary_is_not_fingerprinted (P : Platform) (source : string)
    (o : CompileOptions) (name middle definition : string)
    (before after : list ShaderMacro) :
  let with_macros := fun l =>
    {| targetModel := targetModel o; macros := l; includePaths := includePaths o;
       enableDebugInfo := enableDebugInfo o;
       enableOptimization := enableOptimization o;
       warningsAsErrors := warningsAsErrors o;
       ieee754Compliance := ieee754Compliance o;
       enableUnboundedResourceArrays := enableUnboundedResourceArrays o;
       optimizationLevel := optimizationLevel o |} in
  let l1 := before ++ {| macro_name := name +:+ "=" +:+ middle;
                         macro_definition := definition |} :: after in
  let l2 := before ++ {| macro_name := name;
                         macro_definition := middle +:+ "=" +:+ definition |} :: after in
  l1 <> l2
  /\ CalculateSourceHash P source (with_macros l1)
     = CalculateSourceHash P source (with_macros l2).
Proof.
  cbv zeta. split.
  - intros Heq. apply app_inv_head in Heq. inversion Heq as [[Hname Hdef]].
    apply (f_equal String.length) in Hname.
    rewrite !string_length_app in Hname. cbn in Hname. lia.
  - apply CalculateSourceHash_macros; cbn [targetModel enableDebugInfo
      enableOptimization optimizationLevel macros]; try reflexivity.
    rewrite !map_app. cbn [map macro_name macro_definition].
    by rewrite !string_app_assoc.
Qed.

(** ** Hot reload, further *)

Section Reloading.
Context {Manager : Type} (compile : ManagerCompile Manager).

(** X19. A reload that reaches the manager installs whatever the manager
    returns, a null pointer or a failed compilation included: the shader
    that was in use is replaced, and the source text is the file's. Only
    when the manager throws is the shader in use kept. *)
Theorem reload_installs_the_result (s : Shader) (m : Manager) (w : World)
    (f : File) (result : ManagerResult) (m1 : Manager) :
  shader_hotReloadEnabled s = true ->
  m_sourceFile s <> "" ->
  files w !! m_sourceFile s = Some f ->
  is_open w (m_sourceFile s) = true ->
  m_lastFileTime s < file_mtime f ->
  compile m (string_of_list_byte (file_data f)) (m_entryPoint s) (m_type s)
    (m_compileOptions s) (m_sourceFile s) = (result, m1) ->
  exists s',
    CheckForReload compile s m w
    = (s', m1, [Call_ManagerCompileShader (m_sourceFile s)])
    /\ m_sourceCode s' = string_of_list_byte (file_data f)
    /\ m_shader s' = match result with
                     | ManagerThrows => m_shader s
                     | ManagerReturns p => p
                     end.
Proof.
  intros Hhot Hname Hfile Hopen Hnewer Hcompile.
  unfold CheckForReload. rewrite Hhot. cbn [negb orb].
  destruct (String.eqb_spec (m_sourceFile s) "") as [|_]; [done|].
  unfold GetFileTime at 1. rewrite Hfile.
  destruct (Z.ltb_spec (m_lastFileTime s) (file_mtime f)); [|lia].
  unfold LoadFromFile. rewrite Hfile, Hopen. cbn [negb]. rewrite Hcompile.
  destruct result as [|p]; [by eexists|].
  destruct (Shader_IsValid _); by eexists.
Qed.

(** X20. [LoadFromSource] records its source name as the shader's file and
    never records a file time. With an empty name a check does nothing;
    with the name of a readable file that is newer than the time the
    shader had, the next check under hot reload compiles the text of
    that file in place of the source given. *)
Theorem LoadFromSource_then_CheckForReload (s : Shader) (m : Manager)
    (source entryPoint : string) (type : ShaderType) (options : CompileOptions)
    (sourceName : string) (ok : bool) (s1 : Shader) (m1 : Manager) (t1 : list Call) :
  LoadFromSource compile s m source entryPoint type options sourceName
  = (Some ok, s1, m1, t1) ->
  ok = Shader_IsValid s1
  /\ m_sourceFile s1 = sourceName
  /\ m_sourceCode s1 = source
  /\ m_lastFileTime s1 = m_lastFileTime s
  /\ t1 = [Call_ManagerCompileShader sourceName]
  /\ (sourceName = "" -> forall w, CheckForReload compile s1 m1 w = (s1, m1, []))
  /\ (forall w f,
        shader_hotReloadEnabled s = true ->
        sourceName <> "" ->
        files w !! sourceName = Some f ->
        is_open w sourceName = true ->
        m_lastFileTime s < file_mtime f ->
        exists s2 m2,
          CheckForReload compile s1 m1 w
          = (s2, m2, [Call_ManagerCompileShader sourceName])
          /\ m_sourceCode s2 = string_of_list_byte (file_data f)).
Proof.
  unfold LoadFromSource.
  destruct (compile m source entryPoint type options sourceName) as [[|p] m']
    eqn:Hcompile; [done|].
  intros Heq. inversion Heq; subst. clear Heq.
  do 5 (split; [done|]). split.
  - intros -> w. unfold CheckForReload. cbn.
    by rewrite orb_true_r.
  - intros w f Hhot Hname Hfile Hopen Hnewer.
    unfold CheckForReload. cbn [shader_hotReloadEnabled m_sourceFile
      m_lastFileTime m_entryPoint m_type m_compileOptions].
    rewrite Hhot. cbn [negb orb].
    destruct (String.eqb_spec sourceName "") as [|_]; [done|].
    unfold GetFileTime at 1. rewrite Hfile.
    destruct (Z.ltb_spec (m_lastFileTime s) (file_mtime f)); [|lia].
    unfold LoadFromFile. rewrite Hfile, Hopen. cbn [negb].
    destruct (compile m1 _ entryPoint type options sourceName) as [[|p'] m2];
      [by eexists _, _|].
    destruct (Shader_IsValid _); by eexists _, _.
Qed.

(** X21. [LoadFromFile] on a file that cannot be opened returns false
    without asking the manager and keeps the compiled shader, its
    errors, its size and the source text; but the shader now names the
    new file, entry point, type and options. *)
Theorem LoadFromFile_unreadable (s : Shader) (m : Manager) (w : World)
    (filename entryPoint : string) (type : ShaderType) (options : CompileOptions) :
  files w !! filename = None \/ is_open w filename = false ->
  exists s',
    LoadFromFile compile s m w filename entryPoint type options = (false, s', m, [])
    /\ m_shader s' = m_shader s
    /\ GetErrors s' = GetErrors s
    /\ GetBytecodeSize s' = GetBytecodeSize s
    /\ m_sourceCode s' = m_sourceCode s
    /\ m_lastFileTime s' = m_lastFileTime s
    /\ m_sourceFile s' = filename
    /\ m_entryPoint s' = entryPoint
    /\ m_type s' = type
    /\ m_compileOptions s' = options.
Proof.
  intros Hunreadable. unfold LoadFromFile.
  destruct (files w !! filename) as [f|]; [|by eexists].
  destruct Hunreadable as [|Hopen]; [done|].
  rewrite Hopen. cbn [negb]. by eexists.
Qed.
End Reloading.

(** ** The models a compiler supports *)

(** X22. After [Initialize] the supported models are those up to the
    maximum, which is SM 6.4 when the three DXC calls succeeded and SM
    5.1 otherwise; in the first case every model is supported. *)
Theorem supported_models_after_Initialize (P : Platform) (c0 : ShaderCompiler)
    (model : ShaderModel) :
  let c := (Initialize P c0).2 in
  IsShaderModelSupported c model
  = ShaderModel_le model (GetMaxSupportedShaderModel c)
  /\ GetMaxSupportedShaderModel c
     = (if dxc_initialized P then SM_6_4 else SM_5_1)
  /\ (dxc_initialized P = true -> IsShaderModelSupported c model = true).
Proof.
  cbv zeta.
  pose proof (Initialize_flag P c0) as Hflag.
  unfold IsShaderModelSupported, GetMaxSupportedShaderModel.
  destruct (dxc_initialized P) eqn:Hdxc; rewrite Hflag; cbn [negb];
    (split; [done|split; [done|]]); [|done].
  intros _. by destruct model.
Qed.

(** A shader in use is replaced by a failed compilation of its file. *)
Lemma reload_installs_the_result_witness :
  exists s',
    CheckForReload failing_manager (Shader_EnableHotReload watched_shader true) tt
      watched_world
    = (s', tt, [Call_ManagerCompileShader "fx.hlsl"])
    /\ m_sourceCode s' = sample_source
    /\ Shader_IsValid s' = false.
Proof.
  destruct (reload_installs_the_result failing_manager
              (Shader_EnableHotReload watched_shader true) tt watched_world
              {| file_data := list_byte_of_string sample_source; file_mtime := 5 |}
              (failing_manager tt sample_source "main" Pixel CompileOptions_default
                 "fx.hlsl").1 tt)
    as (s' & Hcheck & Hcode & Hshader);
    try (reflexivity || discriminate || (cbn; lia)).
  exists s'. split; [exact Hcheck|]. split; [exact Hcode|].
  unfold Shader_IsValid. rewrite Hshader. reflexivity.
Defined.

(** A shader compiled from a text under the name of a file is compiled
    from the file at the next check. *)
Lemma LoadFromSource_then_CheckForReload_witness :
  exists s1 s2 m2,
    LoadFromSource working_manager watched_shader tt textured_source "main" Pixel
      CompileOptions_default "fx.hlsl"
    = (Some true, s1, tt, [Call_ManagerCompileShader "fx.hlsl"])
    /\ m_sourceCode s1 = textured_source
    /\ CheckForReload working_manager s1 tt watched_world
       = (s2, m2, [Call_ManagerCompileShader "fx.hlsl"])
    /\ m_sourceCode s2 = sample_source.
Proof.
  destruct (LoadFromSource working_manager watched_shader tt textured_source "main"
              Pixel CompileOptions_default "fx.hlsl") as [[[ok s1] m1] t1] eqn:Hload.
  assert (Hshape : ok = Some true /\ t1 = [Call_ManagerCompileShader "fx.hlsl"]).
  { pose proof Hload as Hv. vm_compute in Hv. by inversion Hv. }
  destruct Hshape as [Hok Ht1]. rewrite Hok in Hload.
  destruct (LoadFromSource_then_CheckForReload working_manager watched_shader tt
              textured_source "main" Pixel CompileOptions_default "fx.hlsl"
              true s1 m1 t1 Hload)
    as (_ & _ & Hcode & _ & _ & _ & Hreload).
  destruct (Hreload watched_world
              {| file_data := list_byte_of_string sample_source; file_mtime := 5 |})
    as (s2 & m2 & Hcheck & Hcode2);
    try (reflexivity || discriminate || (cbn; lia)).
  exists s1, s2, m2. rewrite Hok, Ht1. destruct m1.
  split; [reflexivity|]. split; [exact Hcode|].
  split; [exact Hcheck|exact Hcode2].
Defined.

Lemma LoadFromFile_unreadable_witness :
  exists s',
    LoadFromFile working_manager watched_shader tt empty_world "missing.hlsl" "main"
      Vertex CompileOptions_default
    = (false, s', tt, [])
    /\ m_sourceFile s' = "missing.hlsl".
Proof.
  destruct (LoadFromFile_unreadable working_manager watched_shader tt empty_world
              "missing.hlsl" "main" Vertex CompileOptions_default
              (or_introl eq_refl))
    as (s' & Hload & _ & _ & _ & _ & _ & Hname & _).
  by exists s'.
Defined.
